(** * dnscat2 client session controller

    A shallow embedding of [client/controller/session.c]: the session
    record, the retransmission timer, the driver poll, outgoing frame
    production and incoming frame processing, followed by the properties
    of the session protocol proved about them.

    Conventions.
    - C integers are [Z]; a conversion to [uint16_t] or [size_t] is
      written out as a reduction modulo [2^16] or [2^64], and [& 0xFFFF]
      as [Z.land _ 0xFFFF].
    - Everything the session obtains from the outside world is an explicit
      argument: the answer of [driver_get_outgoing], the [gettimeofday]
      samples read by [time_ms], the values returned by [rand].
    - Everything the session does to the outside world is returned: the
      frame handed back to the caller, the list of calls made on the
      driver, and process termination through [exit]. *)

From Stdlib Require Import ZArith List Bool Lia.
From Stdlib.Strings Require Import Byte String.
Import ListNotations.

Local Open Scope Z_scope.

(** ** Machine integers *)

Definition uint16_max : Z := 0xFFFF.

(** Conversion of an integer value to [uint16_t]. *)
Definition to_uint16 (z : Z) : Z := z mod 2 ^ 16.

(** Conversion of an integer value to [size_t] (64-bit). *)
Definition to_size_t (z : Z) : Z := z mod 2 ^ 64.

Definition is_uint16 (z : Z) : Prop := 0 <= z <= uint16_max.

(** ** Byte buffer *)

Module Buffer.

(** Modelled from the spec: the byte buffer of [libs/buffer.c], which
    [session.c] only calls.  The spec describes it as an ordered byte
    queue with [append], a non-destructive [peek] of at most [max_len]
    bytes, [consume n] dropping the first [n] bytes, and [remaining_len].
    The queue is the list of bytes not yet consumed, oldest first. *)
Definition buffer_t : Type := list byte.

(** Modelled from the spec: a new buffer is empty. *)
Definition buffer_create : buffer_t := [].

(** Modelled from the spec: [remaining_len]. *)
Definition buffer_get_remaining_bytes (b : buffer_t) : Z :=
  Z.of_nat (List.length b).

(** Modelled from the spec: [append]. *)
Definition buffer_add_bytes (b : buffer_t) (data : list byte) : buffer_t :=
  b ++ data.

(** Modelled from the spec: [peek] of at most [max_bytes] bytes.  The
    result is the bytes read, their number, and the buffer afterwards;
    with [consume = false] the buffer is left as it was. *)
Definition buffer_read_remaining_bytes
    (b : buffer_t) (max_bytes : Z) (consume : bool)
    : list byte * Z * buffer_t :=
  let n := Z.min (buffer_get_remaining_bytes b) max_bytes in
  (firstn (Z.to_nat n) b, n, if consume then skipn (Z.to_nat n) b else b).

(** Modelled from the spec: [consume n]. *)
Definition buffer_consume (b : buffer_t) (n : Z) : buffer_t :=
  skipn (Z.to_nat n) b.

End Buffer.
Export Buffer.

(** ** Packets *)

Definition options_t : Type := Z.

(** Modelled from the spec: [packet_t] of [packet.h], with the fields
    [session.c] reads and the spec lists for the three frame kinds, as a
    tagged union: the packet type selects the body.  A packet whose type is
    none of SYN, MSG, FIN keeps its type code.  [seq], [ack] and [options]
    are 16-bit fields. *)
Inductive packet_t : Type :=
| PACKET_TYPE_SYN (session_id : Z) (seq : Z) (options : options_t)
| PACKET_TYPE_MSG (session_id : Z) (seq : Z) (ack : Z) (data : list byte)
| PACKET_TYPE_FIN (session_id : Z) (reason : string)
| PACKET_TYPE_UNKNOWN (packet_type : Z).

(** Modelled from the spec: [create_syn (id, seq, options)]. *)
Definition packet_create_syn
    (session_id : Z) (initial_seq : Z) (options : options_t) : packet_t :=
  PACKET_TYPE_SYN session_id initial_seq options.

(** Modelled from the spec: [create_msg (id, seq, ack, data)], the data
    being the first [data_length] bytes at [data]. *)
Definition packet_create_msg_normal
    (session_id : Z) (seq ack : Z) (data : list byte) (data_length : Z)
    : packet_t :=
  PACKET_TYPE_MSG session_id seq ack (firstn (Z.to_nat data_length) data).

(** Modelled from the spec: [create_fin (id, reason)]. *)
Definition packet_create_fin (session_id : Z) (reason : string) : packet_t :=
  PACKET_TYPE_FIN session_id reason.

(** Modelled from the spec: [serialize (Frame, options)].  The bytes
    produced by [packet_to_bytes (packet, length, options)] are kept
    symbolic: a frame is the packet together with the options it was
    serialized under. *)
Record frame_t : Type := packet_to_bytes {
  frame_packet : packet_t;
  frame_options : options_t
}.

(** ** Driver *)

(** The calls the session makes on its driver, in the order made.  The
    answer of [driver_get_outgoing] is an input of the functions below:
    [None] is the NULL pointer, [Some data] is [data] with its length. *)
Inductive driver_call : Type :=
| driver_data_received (data : list byte)
| driver_close.

(** ** Clock *)

Record timeval : Type := {
  tv_sec : Z;
  tv_usec : Z
}.

Definition RETRANSMIT_DELAY : Z := 1000.

(** [time_ms] on the sample [gettimeofday] stored in [tv].  The [double]
    returned holds this integer number of milliseconds. *)
Definition time_ms (tv : timeval) : Z :=
  tv_sec tv * 1000 + Z.quot (tv_usec tv) 1000.

(** ** Sessions *)

(** The states a session is ever given: [session_create] assigns
    [SESSION_STATE_NEW] and [session_data_incoming] assigns
    [SESSION_STATE_ESTABLISHED].  The [default] branches of the two
    switches on the state are therefore never taken and have no
    counterpart below. *)
Inductive session_state_t : Type :=
| SESSION_STATE_NEW
| SESSION_STATE_ESTABLISHED.

(** The fields of [session_t] that [session.c] reads or writes, except
    the driver handle: the calls made on the driver are inputs and outputs
    of the functions below. *)
Record session_t : Type := {
  id : Z;
  state : session_state_t;
  their_seq : Z;
  my_seq : Z;
  is_shutdown : bool;
  name : option string;
  last_transmit : Z;
  options : options_t;
  outgoing_buffer : buffer_t
}.

Definition set_state (v : session_state_t) (s : session_t) : session_t :=
  {| id := id s; state := v; their_seq := their_seq s; my_seq := my_seq s;
     is_shutdown := is_shutdown s; name := name s;
     last_transmit := last_transmit s; options := options s;
     outgoing_buffer := outgoing_buffer s |}.

Definition set_their_seq (v : Z) (s : session_t) : session_t :=
  {| id := id s; state := state s; their_seq := v; my_seq := my_seq s;
     is_shutdown := is_shutdown s; name := name s;
     last_transmit := last_transmit s; options := options s;
     outgoing_buffer := outgoing_buffer s |}.

Definition set_my_seq (v : Z) (s : session_t) : session_t :=
  {| id := id s; state := state s; their_seq := their_seq s; my_seq := v;
     is_shutdown := is_shutdown s; name := name s;
     last_transmit := last_transmit s; options := options s;
     outgoing_buffer := outgoing_buffer s |}.

Definition set_is_shutdown (v : bool) (s : session_t) : session_t :=
  {| id := id s; state := state s; their_seq := their_seq s;
     my_seq := my_seq s; is_shutdown := v; name := name s;
     last_transmit := last_transmit s; options := options s;
     outgoing_buffer := outgoing_buffer s |}.

Definition set_last_transmit (v : Z) (s : session_t) : session_t :=
  {| id := id s; state := state s; their_seq := their_seq s;
     my_seq := my_seq s; is_shutdown := is_shutdown s; name := name s;
     last_transmit := v; options := options s;
     outgoing_buffer := outgoing_buffer s |}.

Definition set_options (v : options_t) (s : session_t) : session_t :=
  {| id := id s; state := state s; their_seq := their_seq s;
     my_seq := my_seq s; is_shutdown := is_shutdown s; name := name s;
     last_transmit := last_transmit s; options := v;
     outgoing_buffer := outgoing_buffer s |}.

Definition set_outgoing_buffer (v : buffer_t) (s : session_t) : session_t :=
  {| id := id s; state := state s; their_seq := their_seq s;
     my_seq := my_seq s; is_shutdown := is_shutdown s; name := name s;
     last_transmit := last_transmit s; options := options s;
     outgoing_buffer := v |}.

(** *** Retransmission timer *)

(** [update_counter]: [now] is the clock sample [time_ms] reads. *)
Definition update_counter (now : timeval) (s : session_t) : session_t :=
  set_last_transmit (time_ms now) s.

(** [can_i_transmit_yet]: [now] is the clock sample [time_ms] reads. *)
Definition can_i_transmit_yet (now : timeval) (s : session_t) : bool :=
  if time_ms now - last_transmit s >? RETRANSMIT_DELAY then true else false.

(** *** Polling the driver *)

(** [poll_for_data]: [polled] is the answer of
    [driver_get_outgoing (session->driver, &length, -1)]. *)
Definition poll_for_data (polled : option (list byte)) (s : session_t)
    : session_t :=
  match polled with
  | None =>
      if buffer_get_remaining_bytes (outgoing_buffer s) =? 0
      then set_is_shutdown true s
      else s
  | Some data =>
      let length := Z.of_nat (List.length data) in
      if length =? 0
      then s
      else set_outgoing_buffer (buffer_add_bytes (outgoing_buffer s) data) s
  end.

(** *** Session creation *)

(** The initial value of the static [isn]: no override. *)
Definition isn_default : Z := 0xFFFFFFFF.

(** [debug_set_isn]: the argument is converted to the [uint16_t]
    parameter and stored in the 32-bit [isn]; the result is the new value
    of [isn]. *)
Definition debug_set_isn (value : Z) : Z := to_uint16 value.

(** [session_create].  [isn] is the current value of the static of that
    name, [rand_id] and [rand_seq] are the values the two calls of [rand]
    return (the second is only made when there is no override), and
    [options0] is the content of the [options] field in the block
    [safe_malloc] returned, which [session_create] does not assign. *)
Definition session_create
    (isn : Z) (rand_id rand_seq : Z) (options0 : options_t)
    (name : option string) : session_t :=
  {| id := to_uint16 (Z.rem rand_id 0xFFFF);
     my_seq :=
       if isn =? Z.land isn 0xFFFF
       then to_uint16 isn
       else to_uint16 (Z.rem rand_seq 0xFFFF);
     state := SESSION_STATE_NEW;
     their_seq := 0;
     is_shutdown := false;
     last_transmit := 0;
     outgoing_buffer := buffer_create;
     name := name;
     options := options0 |}.


(** *** Outgoing and incoming frames *)

(** What a call of [session_data_incoming] ends in: it returns, leaving
    the session as [s] after the driver calls [calls], or the process
    exits with [code]. *)
Inductive outcome : Type :=
| Returned (s : session_t) (calls : list driver_call)
| Exited (code : Z).

Section Session.

(** [packet_get_msg_size] of the packet codec: the size of the header of
    a MSG packet under the given options. *)
Variable packet_get_msg_size : options_t -> Z.

(** [session_get_outgoing].  [polled] is the driver's answer to the
    poll, [t_check] the clock sample read by [can_i_transmit_yet] and
    [t_emit] the one read by [update_counter].  The result is the session
    afterwards and the frame returned ([None] is NULL). *)
Definition session_get_outgoing
    (s : session_t) (polled : option (list byte))
    (t_check t_emit : timeval) (max_length : Z)
    : session_t * option frame_t :=
  let s := poll_for_data polled s in
  if negb (can_i_transmit_yet t_check s) then (s, None)
  else
    match state s with
    | SESSION_STATE_NEW =>
        let packet := packet_create_syn (id s) (my_seq s) 0 in
        let s := update_counter t_emit s in
        (s, Some (packet_to_bytes packet (options s)))
    | SESSION_STATE_ESTABLISHED =>
        let '(data, data_length, buffer) :=
          buffer_read_remaining_bytes (outgoing_buffer s)
            (to_size_t (max_length - packet_get_msg_size (options s)))
            false in
        let s := set_outgoing_buffer buffer s in
        let packet :=
          if (data_length =? 0) && is_shutdown s
          then packet_create_fin (id s) "Stream closed"%string
          else packet_create_msg_normal (id s) (my_seq s) (their_seq s)
                 data data_length in
        let s := update_counter t_emit s in
        (s, Some (packet_to_bytes packet (options s)))
    end.

(** [session_data_incoming].  [polled] is the driver's answer to the
    poll and [packet] the result of
    [packet_parse (data, length, session->options)]. *)
Definition session_data_incoming
    (s : session_t) (polled : option (list byte)) (packet : packet_t)
    : outcome :=
  let s := poll_for_data polled s in
  match state s with
  | SESSION_STATE_NEW =>
      match packet with
      | PACKET_TYPE_SYN _ seq opts =>
          let s := set_their_seq seq s in
          let s := set_options opts s in
          let s := set_state SESSION_STATE_ESTABLISHED s in
          Returned s []
      | PACKET_TYPE_MSG _ _ _ _ => Returned s []
      | PACKET_TYPE_FIN _ _ => Exited 0
      | PACKET_TYPE_UNKNOWN _ => Exited 1
      end
  | SESSION_STATE_ESTABLISHED =>
      match packet with
      | PACKET_TYPE_SYN _ _ _ => Returned s []
      | PACKET_TYPE_MSG _ seq ack data =>
          let data_length := Z.of_nat (List.length data) in
          if seq =? their_seq s then
            let bytes_acked := to_uint16 (ack - my_seq s) in
            if bytes_acked <=? buffer_get_remaining_bytes (outgoing_buffer s)
            then
              let s :=
                set_their_seq
                  (to_uint16 (Z.land (their_seq s + data_length) 0xFFFF)) s in
              let s :=
                set_outgoing_buffer
                  (buffer_consume (outgoing_buffer s) bytes_acked) s in
              let s :=
                if negb (bytes_acked =? 0)
                then set_my_seq
                       (to_uint16 (Z.land (my_seq s + bytes_acked) 0xFFFF)) s
                else s in
              if data_length >? 0
              then Returned s [driver_data_received data]
              else Returned s []
            else Returned s []
          else Returned s []
      | PACKET_TYPE_FIN _ _ =>
          Returned (set_is_shutdown true s) [driver_close]
      | PACKET_TYPE_UNKNOWN _ =>
          Returned (set_is_shutdown true s) [driver_close]
      end
  end.

(** *** Poll loop *)

(** One call made by the loop that drives the session. *)
Inductive call : Type :=
| call_get_outgoing
    (polled : option (list byte)) (t_check t_emit : timeval)
    (max_length : Z)
| call_data_incoming (polled : option (list byte)) (packet : packet_t).

(** The session after one call; [None] when the process exited. *)
Definition step (s : session_t) (c : call) : option session_t :=
  match c with
  | call_get_outgoing polled t_check t_emit max_length =>
      Some (fst (session_get_outgoing s polled t_check t_emit max_length))
  | call_data_incoming polled packet =>
      match session_data_incoming s polled packet with
      | Returned s' _ => Some s'
      | Exited _ => None
      end
  end.

Fixpoint run (s : session_t) (cs : list call) : option session_t :=
  match cs with
  | [] => Some s
  | c :: cs =>
      match step s c with
      | Some s' => run s' cs
      | None => None
      end
  end.

End Session.

(** ** Vocabulary of the statements *)

(** The bytes a driver answer adds to the buffer. *)
Definition polled_bytes (polled : option (list byte)) : list byte :=
  match polled with
  | Some data => data
  | None => []
  end.

(** Whether a driver answer puts the session in shutdown mode. *)
Definition poll_shuts_down (polled : option (list byte)) (s : session_t)
    : bool :=
  match polled with
  | Some _ => false
  | None => buffer_get_remaining_bytes (outgoing_buffer s) =? 0
  end.

(** The frames that are unexpected in a state but survivable: a SYN while
    Established, a MSG while New. *)
Definition unexpected_survivable
    (st : session_state_t) (packet : packet_t) : bool :=
  match st, packet with
  | SESSION_STATE_ESTABLISHED, PACKET_TYPE_SYN _ _ _ => true
  | SESSION_STATE_NEW, PACKET_TYPE_MSG _ _ _ _ => true
  | _, _ => false
  end.

(** What a call that only polls leaves of the session: every field but
    the buffer and the shutdown flag is as before, the buffer has the
    polled bytes appended, and the shutdown flag is raised when the driver
    had no more data for an empty buffer. *)
Definition only_polled
    (polled : option (list byte)) (s s' : session_t) : Prop :=
  id s' = id s /\
  state s' = state s /\
  their_seq s' = their_seq s /\
  my_seq s' = my_seq s /\
  name s' = name s /\
  last_transmit s' = last_transmit s /\
  options s' = options s /\
  outgoing_buffer s' = outgoing_buffer s ++ polled_bytes polled /\
  is_shutdown s' = is_shutdown s || poll_shuts_down polled s /\
  (polled_bytes polled = [] -> poll_shuts_down polled s = false -> s' = s).

(** The frame [session_get_outgoing] returns for an Established session
    once the timer has let it through: [s0] is the session the poll left
    and [max_length] the frame size budget. *)
Definition established_frame
    (packet_get_msg_size : options_t -> Z) (s0 : session_t) (max_length : Z)
    : frame_t :=
  let budget := to_size_t (max_length - packet_get_msg_size (options s0)) in
  let n := Z.min (Z.of_nat (List.length (outgoing_buffer s0))) budget in
  packet_to_bytes
    (if (n =? 0) && is_shutdown s0
     then PACKET_TYPE_FIN (id s0) "Stream closed"
     else PACKET_TYPE_MSG (id s0) (my_seq s0) (their_seq s0)
            (firstn (Z.to_nat n) (outgoing_buffer s0)))
    (options s0).

(** The calls that hand the session a received frame. *)
Definition is_data_incoming (c : call) : bool :=
  match c with
  | call_data_incoming _ _ => true
  | call_get_outgoing _ _ _ _ => false
  end.

(** *** The poll loop with its effects on the driver *)

(** The bytes handed to the driver by a list of driver calls, in order. *)
Definition delivered (calls : list driver_call) : list byte :=
  flat_map
    (fun c => match c with
              | driver_data_received data => data
              | driver_close => []
              end)
    calls.

(** What the driver answered to the poll of a call. *)
Definition call_polled (c : call) : option (list byte) :=
  match c with
  | call_get_outgoing polled _ _ _ => polled
  | call_data_incoming polled _ => polled
  end.

(** All the bytes the driver supplied over a list of calls, in order. *)
Definition supplied (cs : list call) : list byte :=
  flat_map (fun c => polled_bytes (call_polled c)) cs.

(** One call of the poll loop, with the calls it makes on the driver;
    [None] when the process exited. *)
Definition step_calls
    (packet_get_msg_size : options_t -> Z) (s : session_t) (c : call)
    : option (session_t * list driver_call) :=
  match c with
  | call_get_outgoing polled t_check t_emit max_length =>
      Some (fst (session_get_outgoing packet_get_msg_size s polled
                   t_check t_emit max_length), [])
  | call_data_incoming polled packet =>
      match session_data_incoming s polled packet with
      | Returned s' calls => Some (s', calls)
      | Exited _ => None
      end
  end.

(** A sequence of calls, with all the calls made on the driver. *)
Fixpoint run_calls
    (packet_get_msg_size : options_t -> Z) (s : session_t) (cs : list call)
    : option (session_t * list driver_call) :=
  match cs with
  | [] => Some (s, [])
  | c :: cs =>
      match step_calls packet_get_msg_size s c with
      | Some (s', calls) =>
          match run_calls packet_get_msg_size s' cs with
          | Some (s'', calls') => Some (s'', calls ++ calls')
          | None => None
          end
      | None => None
      end
  end.

(** The SYN frames among the received frames of a list of calls carry a
    16-bit sequence number, as the codec parses them. *)
Definition syn_seq_16bit (c : call) : bool :=
  match c with
  | call_data_incoming _ (PACKET_TYPE_SYN _ seq _) =>
      (0 <=? seq) && (seq <=? uint16_max)
  | _ => true
  end.

(** The frames that close an Established session. *)
Definition closes_session (packet : packet_t) : bool :=
  match packet with
  | PACKET_TYPE_FIN _ _ => true
  | PACKET_TYPE_UNKNOWN _ => true
  | _ => false
  end.

(** ** Sample sessions used by the examples *)

Definition sample_bytes : list byte := [x68; x65; x6c; x6c; x6f].

Definition sample_new : session_t :=
  session_create isn_default 4660 22136 0 (Some "console"%string).

Definition sample_established
    (my their : Z) (shut : bool) (buffer : buffer_t) : session_t :=
  {| id := 7; state := SESSION_STATE_ESTABLISHED; their_seq := their;
     my_seq := my; is_shutdown := shut; name := None; last_transmit := 0;
     options := 0; outgoing_buffer := buffer |}.

(** A header size for the examples: under every option a MSG header takes
    eight bytes. *)
Definition sample_msg_size : options_t -> Z := fun _ => 8.

Definition at_ms (ms : Z) : timeval := {| tv_sec := 0; tv_usec := ms * 1000 |}.

(** A conversation for the examples: a new session pulls five bytes from
    the driver and sends its SYN, receives the peer's SYN, sends the five
    bytes, and receives a MSG that acknowledges them and carries two bytes,
    while the driver supplies one more byte. *)
Definition sample_calls : list call :=
  [ call_get_outgoing (Some sample_bytes) (at_ms 2000) (at_ms 2001) 100;
    call_data_incoming None (PACKET_TYPE_SYN 7 0x1234 0);
    call_get_outgoing None (at_ms 4000) (at_ms 4001) 100;
    call_data_incoming (Some [x21]) (PACKET_TYPE_MSG 7 0x1234 22141 [x41; x42]) ].

(** The session [sample_calls] leaves of [sample_new]. *)
Definition sample_after_calls : session_t :=
  {| id := 4660; state := SESSION_STATE_ESTABLISHED; their_seq := 0x1236;
     my_seq := 22141; is_shutdown := false; name := Some "console"%string;
     last_transmit := 4001; options := 0; outgoing_buffer := [x21] |}.

(** * Properties *)

(** ** Arithmetic of the sequence counters *)

Lemma land_0xFFFF (z : Z) : Z.land z 0xFFFF = z mod 2 ^ 16.
Proof. change 0xFFFF with (Z.ones 16). apply Z.land_ones. lia. Qed.

Lemma to_uint16_land (z : Z) : to_uint16 (Z.land z 0xFFFF) = z mod 2 ^ 16.
Proof.
  unfold to_uint16. rewrite land_0xFFFF. apply Z.mod_mod. lia.
Qed.

Lemma to_uint16_range (z : Z) : 0 <= to_uint16 z < 2 ^ 16.
Proof. unfold to_uint16. apply Z.mod_pos_bound. lia. Qed.

Lemma to_uint16_small (z : Z) : is_uint16 z -> to_uint16 z = z.
Proof.
  unfold is_uint16, uint16_max, to_uint16. intros H.
  apply Z.mod_small. lia.
Qed.

(** ** The driver poll *)

Lemma poll_for_data_frame (polled : option (list byte)) (s : session_t) :
  id (poll_for_data polled s) = id s /\
  state (poll_for_data polled s) = state s /\
  their_seq (poll_for_data polled s) = their_seq s /\
  my_seq (poll_for_data polled s) = my_seq s /\
  name (poll_for_data polled s) = name s /\
  last_transmit (poll_for_data polled s) = last_transmit s /\
  options (poll_for_data polled s) = options s.
Proof.
  unfold poll_for_data.
  destruct polled as [data|].
  - destruct (Z.of_nat (List.length data) =? 0); cbn; repeat split.
  - destruct (buffer_get_remaining_bytes (outgoing_buffer s) =? 0);
      cbn; repeat split.
Qed.

Lemma poll_for_data_state (polled : option (list byte)) (s : session_t) :
  state (poll_for_data polled s) = state s.
Proof. apply poll_for_data_frame. Qed.

Lemma poll_for_data_buffer (polled : option (list byte)) (s : session_t) :
  outgoing_buffer (poll_for_data polled s)
  = outgoing_buffer s ++ polled_bytes polled.
Proof.
  unfold poll_for_data, polled_bytes, buffer_add_bytes.
  destruct polled as [data|].
  - destruct (Z.eqb_spec (Z.of_nat (List.length data)) 0) as [E|E]; cbn.
    + destruct data; [now rewrite app_nil_r | discriminate E].
    + reflexivity.
  - destruct (buffer_get_remaining_bytes (outgoing_buffer s) =? 0); cbn;
      now rewrite app_nil_r.
Qed.

Lemma poll_for_data_is_shutdown
    (polled : option (list byte)) (s : session_t) :
  is_shutdown (poll_for_data polled s)
  = is_shutdown s || poll_shuts_down polled s.
Proof.
  unfold poll_for_data, poll_shuts_down.
  destruct polled as [data|].
  - destruct (Z.of_nat (List.length data) =? 0); cbn;
      now rewrite orb_false_r.
  - destruct (buffer_get_remaining_bytes (outgoing_buffer s) =? 0); cbn.
    + now rewrite orb_true_r.
    + now rewrite orb_false_r.
Qed.

(** A poll that brings no bytes and detects no end of data leaves the
    session as it was. *)
Lemma poll_for_data_idle (polled : option (list byte)) (s : session_t) :
  polled_bytes polled = [] ->
  poll_shuts_down polled s = false ->
  poll_for_data polled s = s.
Proof.
  unfold poll_for_data, polled_bytes, poll_shuts_down.
  destruct polled as [data|]; intros Hb Hs.
  - subst data. reflexivity.
  - now rewrite Hs.
Qed.

(** ** Handshake *)

(** C4: a session in state New that receives a SYN with initial sequence
    number [seq] and options [opts] returns with [their_seq = seq], options
    [opts] and state Established, whatever the driver answered to the
    poll. *)
Theorem syn_in_new_establishes
    (s : session_t) (polled : option (list byte))
    (sid seq : Z) (opts : options_t) :
  state s = SESSION_STATE_NEW ->
  exists s',
    session_data_incoming s polled (PACKET_TYPE_SYN sid seq opts)
    = Returned s' [] /\
    their_seq s' = seq /\
    options s' = opts /\
    state s' = SESSION_STATE_ESTABLISHED.
Proof.
  intros Hst. unfold session_data_incoming.
  rewrite poll_for_data_state, Hst.
  eexists. split; [reflexivity|]. cbn. auto.
Qed.

Lemma syn_in_new_establishes_witness :
  exists s',
    session_data_incoming sample_new None (PACKET_TYPE_SYN 7 0x1234 1)
    = Returned s' [] /\
    their_seq s' = 0x1234 /\
    options s' = 1 /\
    state s' = SESSION_STATE_ESTABLISHED.
Proof.
  apply (syn_in_new_establishes sample_new None 7 0x1234 1).
  reflexivity.
Defined.

(** ** Incoming MSG frames in state Established *)

(** The number of bytes a MSG with acknowledgment [ack] acknowledges, as
    the ACK check computes it once the driver has been polled. *)
Lemma bytes_acked_after_poll
    (polled : option (list byte)) (s : session_t) (ack : Z) :
  to_uint16 (ack - my_seq (poll_for_data polled s))
  = (ack - my_seq s) mod 2 ^ 16.
Proof.
  destruct (poll_for_data_frame polled s) as (_ & _ & _ & E & _).
  now rewrite E.
Qed.

(** What [session_data_incoming] does with a MSG that passes both checks,
    in terms of the session [s0] the poll left. *)
Lemma session_data_incoming_msg_accepted
    (s : session_t) (polled : option (list byte))
    (sid seq ack : Z) (data : list byte) :
  let s0 := poll_for_data polled s in
  let bytes_acked := to_uint16 (ack - my_seq s0) in
  state s = SESSION_STATE_ESTABLISHED ->
  seq = their_seq s ->
  bytes_acked <= buffer_get_remaining_bytes (outgoing_buffer s0) ->
  session_data_incoming s polled (PACKET_TYPE_MSG sid seq ack data)
  = Returned
      {| id := id s0; state := SESSION_STATE_ESTABLISHED;
         their_seq := (their_seq s0 + Z.of_nat (List.length data)) mod 2 ^ 16;
         my_seq := if bytes_acked =? 0 then my_seq s0
                   else (my_seq s0 + bytes_acked) mod 2 ^ 16;
         is_shutdown := is_shutdown s0; name := name s0;
         last_transmit := last_transmit s0; options := options s0;
         outgoing_buffer := skipn (Z.to_nat bytes_acked) (outgoing_buffer s0) |}
      (match data with [] => [] | _ :: _ => [driver_data_received data] end).
Proof.
  intros s0 bytes_acked Hst Hseq Hack.
  assert (Hst0 : state s0 = SESSION_STATE_ESTABLISHED)
    by (unfold s0; now rewrite poll_for_data_state).
  assert (Hseq0 : seq = their_seq s0)
    by (unfold s0; destruct (poll_for_data_frame polled s) as (_ & _ & E & _);
        now rewrite E).
  unfold session_data_incoming. fold s0. rewrite Hst0.
  rewrite Hseq0, Z.eqb_refl. fold bytes_acked.
  destruct (Z.leb_spec bytes_acked
              (buffer_get_remaining_bytes (outgoing_buffer s0))) as [_|C];
    [|lia].
  rewrite !to_uint16_land.
  unfold buffer_consume.
  destruct (bytes_acked =? 0); destruct data as [|b data]; cbn;
    unfold set_my_seq, set_outgoing_buffer, set_their_seq; cbn;
    rewrite Hst0; reflexivity.
Qed.

(** C1: a MSG accepted in state Established (right SEQ, and an ACK for at
    most the bytes the buffer holds when the check is made, that is, after
    the driver poll) advances [their_seq] by the payload length, drops
    exactly [bytes_acked] bytes from the front of the buffer, advances
    [my_seq] by [bytes_acked] when that is not zero, and hands the payload
    to the driver iff it is not empty.  With [my_seq = 100],
    [their_seq = 0], five buffered bytes and a MSG with SEQ 0, ACK 105 and
    no payload, the buffer ends empty, [my_seq] is 105 and [their_seq]
    stays 0. *)
Theorem accepted_msg_bookkeeping
    (s : session_t) (polled : option (list byte))
    (sid seq ack : Z) (data : list byte) :
  let s0 := poll_for_data polled s in
  let bytes_acked := (ack - my_seq s) mod 2 ^ 16 in
  state s = SESSION_STATE_ESTABLISHED ->
  seq = their_seq s ->
  bytes_acked <= Z.of_nat (List.length (outgoing_buffer s0)) ->
  exists s' calls,
    session_data_incoming s polled (PACKET_TYPE_MSG sid seq ack data)
    = Returned s' calls /\
    their_seq s' = (their_seq s + Z.of_nat (List.length data)) mod 2 ^ 16 /\
    outgoing_buffer s' = skipn (Z.to_nat bytes_acked) (outgoing_buffer s0) /\
    Z.of_nat (List.length (outgoing_buffer s'))
    = Z.of_nat (List.length (outgoing_buffer s0)) - bytes_acked /\
    (bytes_acked <> 0 -> my_seq s' = (my_seq s + bytes_acked) mod 2 ^ 16) /\
    (bytes_acked = 0 -> my_seq s' = my_seq s) /\
    (data <> [] -> calls = [driver_data_received data]) /\
    (data = [] -> calls = []) /\
    (my_seq s = 100 -> their_seq s = 0 ->
     List.length (outgoing_buffer s0) = 5%nat ->
     ack = 105 -> data = [] ->
     outgoing_buffer s' = [] /\ my_seq s' = 105 /\ their_seq s' = 0).
Proof.
  intros s0 bytes_acked Hst Hseq Hack.
  pose proof (session_data_incoming_msg_accepted s polled sid seq ack data)
    as Hrun.
  cbv zeta in Hrun. fold s0 in Hrun.
  assert (Eacked : to_uint16 (ack - my_seq s0) = bytes_acked)
    by apply bytes_acked_after_poll.
  rewrite Eacked in Hrun.
  destruct (poll_for_data_frame polled s) as (_ & _ & Ets & Ems & _).
  fold s0 in Ets, Ems. rewrite Ets, Ems in Hrun.
  specialize (Hrun Hst Hseq Hack).
  assert (Hpos : 0 <= bytes_acked)
    by (apply Z.mod_pos_bound; lia).
  do 2 eexists. split; [exact Hrun|]. cbn.
  split; [reflexivity|]. split; [reflexivity|].
  split; [rewrite length_skipn; lia|].
  split; [intros Hnz; destruct (Z.eqb_spec bytes_acked 0); [lia|reflexivity]|].
  split; [intros Hz; now rewrite Hz|].
  split; [destruct data; [congruence|reflexivity]|].
  split; [intros ->; reflexivity|].
  intros Hmy Hth Hlen -> ->.
  assert (E5 : bytes_acked = 5)
    by (unfold bytes_acked; rewrite Hmy; reflexivity).
  rewrite E5, Hmy, Hth. cbn.
  repeat split.
  destruct (outgoing_buffer s0) as [|b0 [|b1 [|b2 [|b3 [|b4 [|b5 l]]]]]];
    try discriminate Hlen.
  reflexivity.
Qed.

Lemma accepted_msg_bookkeeping_witness :
  exists s' calls,
    session_data_incoming (sample_established 100 0 false sample_bytes) None
      (PACKET_TYPE_MSG 7 0 105 [])
    = Returned s' calls /\
    outgoing_buffer s' = [] /\ my_seq s' = 105 /\ their_seq s' = 0 /\
    calls = [].
Proof.
  destruct (accepted_msg_bookkeeping
              (sample_established 100 0 false sample_bytes) None 7 0 105 [])
    as (s' & calls & Hrun & _ & _ & _ & _ & _ & _ & Hcalls & Hscenario).
  - reflexivity.
  - reflexivity.
  - vm_compute. discriminate.
  - exists s', calls. split; [exact Hrun|].
    destruct Hscenario as (Hb & Hm & Ht); try reflexivity.
    repeat split; try assumption. now apply Hcalls.
Defined.

Lemma poll_for_data_only_polled
    (polled : option (list byte)) (s : session_t) :
  only_polled polled s (poll_for_data polled s).
Proof.
  unfold only_polled.
  destruct (poll_for_data_frame polled s) as (H1 & H2 & H3 & H4 & H5 & H6 & H7).
  repeat (split; [assumption|]).
  split; [apply poll_for_data_buffer|].
  split; [apply poll_for_data_is_shutdown|].
  apply poll_for_data_idle.
Qed.

(** What [session_data_incoming] does with a MSG that fails a check. *)
Lemma session_data_incoming_msg_rejected
    (s : session_t) (polled : option (list byte))
    (sid seq ack : Z) (data : list byte) :
  let s0 := poll_for_data polled s in
  state s = SESSION_STATE_ESTABLISHED ->
  seq <> their_seq s \/
  (ack - my_seq s) mod 2 ^ 16 > Z.of_nat (List.length (outgoing_buffer s0)) ->
  session_data_incoming s polled (PACKET_TYPE_MSG sid seq ack data)
  = Returned s0 [].
Proof.
  intros s0 Hst Hbad.
  destruct (poll_for_data_frame polled s) as (_ & Est & Ets & _).
  unfold session_data_incoming. fold s0 in Est, Ets |- *.
  rewrite Est, Hst, Ets.
  destruct (Z.eqb_spec seq (their_seq s)) as [Eseq|Nseq]; [|reflexivity].
  destruct Hbad as [Hseq|Hack]; [contradiction|].
  unfold s0 at 1. rewrite bytes_acked_after_poll.
  unfold buffer_get_remaining_bytes.
  destruct (Z.leb_spec ((ack - my_seq s) mod 2 ^ 16)
              (Z.of_nat (List.length (outgoing_buffer s0)))) as [C|_];
    [lia|reflexivity].
Qed.

(** C3, as the code has it: a MSG received in state Established with a
    SEQ other than [their_seq], or acknowledging more bytes than the buffer
    holds after the driver poll, is dropped; the call returns the session
    exactly as the poll left it and makes no call on the driver.  So
    [my_seq], [their_seq], the state and the options are as before the
    call, the buffer is the one before the call followed by the polled
    bytes, and [is_shutdown] is raised only by the poll. *)
Theorem rejected_msg_only_polls
    (s : session_t) (polled : option (list byte))
    (sid seq ack : Z) (data : list byte) :
  let s0 := poll_for_data polled s in
  state s = SESSION_STATE_ESTABLISHED ->
  seq <> their_seq s \/
  (ack - my_seq s) mod 2 ^ 16 > Z.of_nat (List.length (outgoing_buffer s0)) ->
  session_data_incoming s polled (PACKET_TYPE_MSG sid seq ack data)
  = Returned s0 [] /\
  only_polled polled s s0.
Proof.
  intros s0 Hst Hbad.
  split; [|apply poll_for_data_only_polled].
  now apply session_data_incoming_msg_rejected.
Qed.

Lemma rejected_msg_only_polls_witness :
  session_data_incoming (sample_established 100 0 false sample_bytes)
    (Some [x21]) (PACKET_TYPE_MSG 7 0 107 [x41])
  = Returned
      (sample_established 100 0 false (sample_bytes ++ [x21])) [].
Proof.
  apply (rejected_msg_only_polls
           (sample_established 100 0 false sample_bytes)
           (Some [x21]) 7 0 107 [x41]).
  - reflexivity.
  - right. vm_compute. reflexivity.
Defined.

(** C3 as stated fails: the driver is polled before the frame is looked
    at.  A MSG with a wrong SEQ reaches a session with an empty buffer:
    when the driver answers that it has no more data, [is_shutdown] goes
    from false to true; when it answers with one byte, the buffer goes from
    empty to that byte. *)
Lemma rejected_msg_state_changes :
  let s := sample_established 100 0 false [] in
  let bad := PACKET_TYPE_MSG 7 1 100 [x41] in
  1 <> their_seq s /\
  is_shutdown s = false /\
  outgoing_buffer s = [] /\
  (exists s', session_data_incoming s None bad = Returned s' [] /\
              is_shutdown s' = true) /\
  (exists s', session_data_incoming s (Some [x21]) bad = Returned s' [] /\
              outgoing_buffer s' = [x21]).
Proof.
  cbv zeta. split; [discriminate|].
  split; [reflexivity|]. split; [reflexivity|].
  split; eexists; (split; [vm_compute; reflexivity|reflexivity]).
Qed.

(** ** Unexpected frames *)

(** C8, as the code has it: a SYN received while Established, or a MSG
    received while New, is ignored; the call returns the session exactly as
    the driver poll left it, and the driver is neither closed nor given
    data.  State, [my_seq], [their_seq] and options are as before the
    call; the buffer has the polled bytes appended and [is_shutdown] is
    raised only by the poll. *)
Theorem unexpected_frame_only_polls
    (s : session_t) (polled : option (list byte)) (packet : packet_t) :
  unexpected_survivable (state s) packet = true ->
  session_data_incoming s polled packet
  = Returned (poll_for_data polled s) [] /\
  only_polled polled s (poll_for_data polled s).
Proof.
  intros Hun.
  split; [|apply poll_for_data_only_polled].
  unfold session_data_incoming. rewrite poll_for_data_state.
  destruct (state s), packet; try discriminate Hun; reflexivity.
Qed.

Lemma unexpected_frame_only_polls_witness :
  session_data_incoming sample_new (Some sample_bytes)
    (PACKET_TYPE_MSG 7 0 0 [x41])
  = Returned (poll_for_data (Some sample_bytes) sample_new) [] /\
  session_data_incoming (sample_established 100 0 false sample_bytes) None
    (PACKET_TYPE_SYN 7 0x1234 0)
  = Returned (sample_established 100 0 false sample_bytes) [].
Proof.
  split.
  - apply (unexpected_frame_only_polls sample_new (Some sample_bytes)
             (PACKET_TYPE_MSG 7 0 0 [x41])).
    reflexivity.
  - apply (unexpected_frame_only_polls
             (sample_established 100 0 false sample_bytes) None
             (PACKET_TYPE_SYN 7 0x1234 0)).
    reflexivity.
Defined.

(** C8 as stated fails, for the same reason as C3: the poll comes first.
    A SYN reaching an Established session with an empty buffer whose driver
    has no more data raises [is_shutdown]; a MSG reaching a New session
    whose driver has bytes ready leaves those bytes in the buffer. *)
Lemma unexpected_frame_state_changes :
  let s := sample_established 100 0 false [] in
  unexpected_survivable (state s) (PACKET_TYPE_SYN 7 0x1234 0) = true /\
  unexpected_survivable (state sample_new) (PACKET_TYPE_MSG 7 0 0 []) = true /\
  is_shutdown s = false /\
  outgoing_buffer sample_new = [] /\
  (exists s', session_data_incoming s None (PACKET_TYPE_SYN 7 0x1234 0)
              = Returned s' [] /\
              is_shutdown s' = true) /\
  (exists s', session_data_incoming sample_new (Some sample_bytes)
                (PACKET_TYPE_MSG 7 0 0 [])
              = Returned s' [] /\
              outgoing_buffer s' = sample_bytes).
Proof.
  cbv zeta. repeat (split; [reflexivity|]).
  split; eexists; (split; [vm_compute; reflexivity|reflexivity]).
Qed.

(** ** Outgoing frames *)

Lemma can_i_transmit_yet_true (now : timeval) (s : session_t) :
  can_i_transmit_yet now s = true <->
  time_ms now - last_transmit s > RETRANSMIT_DELAY.
Proof.
  unfold can_i_transmit_yet.
  destruct (Z.gtb_spec (time_ms now - last_transmit s) RETRANSMIT_DELAY);
    split; intros; try lia; try reflexivity; discriminate.
Qed.

Lemma can_i_transmit_yet_false (now : timeval) (s : session_t) :
  can_i_transmit_yet now s = false <->
  time_ms now - last_transmit s <= RETRANSMIT_DELAY.
Proof.
  unfold can_i_transmit_yet.
  destruct (Z.gtb_spec (time_ms now - last_transmit s) RETRANSMIT_DELAY);
    split; intros; try lia; try reflexivity; discriminate.
Qed.

Lemma can_i_transmit_yet_poll
    (now : timeval) (polled : option (list byte)) (s : session_t) :
  can_i_transmit_yet now (poll_for_data polled s) = can_i_transmit_yet now s.
Proof.
  unfold can_i_transmit_yet.
  destruct (poll_for_data_frame polled s) as (_ & _ & _ & _ & _ & E & _).
  now rewrite E.
Qed.

Lemma set_outgoing_buffer_same (s : session_t) :
  set_outgoing_buffer (outgoing_buffer s) s = s.
Proof. now destruct s. Qed.

Section Outgoing.

Variable packet_get_msg_size : options_t -> Z.

Lemma session_get_outgoing_suppressed
    (s : session_t) (polled : option (list byte))
    (t_check t_emit : timeval) (max_length : Z) :
  time_ms t_check - last_transmit s <= RETRANSMIT_DELAY ->
  session_get_outgoing packet_get_msg_size s polled t_check t_emit
    max_length
  = (poll_for_data polled s, None).
Proof.
  intros Hwait. unfold session_get_outgoing.
  rewrite can_i_transmit_yet_poll.
  apply can_i_transmit_yet_false in Hwait. now rewrite Hwait.
Qed.

Lemma session_get_outgoing_new
    (s : session_t) (polled : option (list byte))
    (t_check t_emit : timeval) (max_length : Z) :
  time_ms t_check - last_transmit s > RETRANSMIT_DELAY ->
  state s = SESSION_STATE_NEW ->
  session_get_outgoing packet_get_msg_size s polled t_check t_emit
    max_length
  = (update_counter t_emit (poll_for_data polled s),
     Some (packet_to_bytes (PACKET_TYPE_SYN (id s) (my_seq s) 0)
             (options s))).
Proof.
  intros Hgo Hst. unfold session_get_outgoing.
  rewrite can_i_transmit_yet_poll.
  apply can_i_transmit_yet_true in Hgo. rewrite Hgo.
  rewrite poll_for_data_state, Hst. cbn.
  destruct (poll_for_data_frame polled s) as (E1 & _ & _ & E4 & _ & _ & E7).
  now rewrite E1, E4, E7.
Qed.

Lemma session_get_outgoing_established
    (s : session_t) (polled : option (list byte))
    (t_check t_emit : timeval) (max_length : Z) :
  time_ms t_check - last_transmit s > RETRANSMIT_DELAY ->
  state s = SESSION_STATE_ESTABLISHED ->
  session_get_outgoing packet_get_msg_size s polled t_check t_emit
    max_length
  = (update_counter t_emit (poll_for_data polled s),
     Some (established_frame packet_get_msg_size
             (poll_for_data polled s) max_length)).
Proof.
  intros Hgo Hst. unfold session_get_outgoing.
  rewrite can_i_transmit_yet_poll.
  apply can_i_transmit_yet_true in Hgo. rewrite Hgo.
  rewrite poll_for_data_state, Hst.
  unfold buffer_read_remaining_bytes, established_frame,
    buffer_get_remaining_bytes, packet_create_fin, packet_create_msg_normal.
  cbn [negb]. rewrite set_outgoing_buffer_same.
  rewrite firstn_firstn, Nat.min_id.
  reflexivity.
Qed.

(** Whatever the call, the session afterwards is the polled session,
    with the emission time recorded when a frame was produced. *)
Lemma session_get_outgoing_session
    (s : session_t) (polled : option (list byte))
    (t_check t_emit : timeval) (max_length : Z) :
  let r := session_get_outgoing packet_get_msg_size s polled t_check t_emit
    max_length in
  (snd r = None /\
   time_ms t_check - last_transmit s <= RETRANSMIT_DELAY /\
   fst r = poll_for_data polled s) \/
  (snd r <> None /\
   time_ms t_check - last_transmit s > RETRANSMIT_DELAY /\
   fst r = update_counter t_emit (poll_for_data polled s)).
Proof.
  cbv zeta.
  destruct (Z.le_gt_cases (time_ms t_check - last_transmit s)
              RETRANSMIT_DELAY) as [Hwait|Hgo].
  - left. rewrite session_get_outgoing_suppressed by assumption. auto.
  - right. apply Z.lt_gt in Hgo.
    destruct (state s) eqn:Hst.
    + rewrite session_get_outgoing_new by assumption.
      cbn. repeat split; [discriminate|assumption].
    + rewrite session_get_outgoing_established by assumption.
      cbn. repeat split; [discriminate|assumption].
Qed.

(** *** FIN or MSG *)

Lemma established_frame_fin
    (s0 : session_t) (max_length : Z) (sid : Z) (reason : string)
    (opts : options_t) :
  established_frame packet_get_msg_size s0 max_length
  = packet_to_bytes (PACKET_TYPE_FIN sid reason) opts ->
  is_shutdown s0 = true /\
  Z.min (Z.of_nat (List.length (outgoing_buffer s0)))
    (to_size_t (max_length - packet_get_msg_size (options s0))) = 0.
Proof.
  unfold established_frame. cbv zeta.
  destruct (Z.eqb_spec
              (Z.min (Z.of_nat (List.length (outgoing_buffer s0)))
                 (to_size_t (max_length - packet_get_msg_size (options s0))))
              0) as [E|E];
    destruct (is_shutdown s0); cbn [andb]; intros H;
    try discriminate H; auto.
Qed.

(** C9, as the code has it.  A FIN is built only by an Established
    session that is shut down and peeked zero bytes, where the number of
    bytes peeked is the smaller of the buffer length and the payload budget
    [max_length - packet_get_msg_size options], taken as a [size_t].  A
    shut down Established session with a non-empty buffer, whose timer
    allows transmission, therefore builds a MSG carrying the first bytes of
    the buffer whenever that budget is not zero; when the budget is zero it
    peeks nothing and builds a FIN. *)
Theorem shutdown_with_pending_bytes
    (s : session_t) (polled : option (list byte))
    (t_check t_emit : timeval) (max_length : Z) :
  let s0 := poll_for_data polled s in
  let budget := to_size_t (max_length - packet_get_msg_size (options s)) in
  let n := Z.min (Z.of_nat (List.length (outgoing_buffer s0))) budget in
  let r := session_get_outgoing packet_get_msg_size s polled t_check t_emit
             max_length in
  (forall sid reason opts,
      snd r = Some (packet_to_bytes (PACKET_TYPE_FIN sid reason) opts) ->
      state s = SESSION_STATE_ESTABLISHED /\ is_shutdown s0 = true /\ n = 0) /\
  (state s = SESSION_STATE_ESTABLISHED ->
   is_shutdown s = true ->
   outgoing_buffer s <> [] ->
   time_ms t_check - last_transmit s > RETRANSMIT_DELAY ->
   (budget <> 0 ->
    0 < n /\
    snd r = Some (packet_to_bytes
                    (PACKET_TYPE_MSG (id s) (my_seq s) (their_seq s)
                       (firstn (Z.to_nat n)
                          (outgoing_buffer s ++ polled_bytes polled)))
                    (options s))) /\
   (budget = 0 ->
    snd r = Some (packet_to_bytes
                    (PACKET_TYPE_FIN (id s) "Stream closed") (options s)))).
Proof.
  intros s0 budget n r.
  destruct (poll_for_data_frame polled s)
    as (Eid & Est & Ets & Ems & _ & _ & Eop).
  fold s0 in Eid, Est, Ets, Ems, Eop.
  split.
  - intros sid reason opts Hfin.
    destruct (Z.le_gt_cases (time_ms t_check - last_transmit s)
                RETRANSMIT_DELAY) as [Hwait|Hgo].
    + unfold r in Hfin.
      rewrite session_get_outgoing_suppressed in Hfin by assumption.
      discriminate Hfin.
    + apply Z.lt_gt in Hgo. unfold r in Hfin.
      destruct (state s) eqn:Hst.
      * rewrite session_get_outgoing_new in Hfin by assumption.
        discriminate Hfin.
      * rewrite session_get_outgoing_established in Hfin by assumption.
        cbn [snd] in Hfin.
        assert (Hframe : established_frame packet_get_msg_size s0 max_length
                         = packet_to_bytes (PACKET_TYPE_FIN sid reason) opts)
          by (unfold s0; congruence).
        clear Hfin. rename Hframe into Hfin.
        apply established_frame_fin in Hfin.
        rewrite Eop in Hfin. fold budget in Hfin. fold n in Hfin.
        destruct Hfin. auto.
  - intros Hst Hshut Hbuf Hgo.
    assert (Hshut0 : is_shutdown s0 = true)
      by (unfold s0; rewrite poll_for_data_is_shutdown, Hshut; reflexivity).
    assert (Hlen : 0 < Z.of_nat (List.length (outgoing_buffer s0))).
    { unfold s0. rewrite poll_for_data_buffer, length_app.
      destruct (outgoing_buffer s); [congruence|cbn; lia]. }
    assert (Hbudget : 0 <= budget)
      by (apply Z.mod_pos_bound; lia).
    unfold r. rewrite session_get_outgoing_established by assumption.
    cbn [snd]. unfold established_frame. cbv zeta. fold s0.
    rewrite Eop, Eid, Ets, Ems, Hshut0. fold budget. fold n.
    split.
    + intros Hnz. assert (Hn : 0 < n) by (unfold n; lia).
      split; [exact Hn|].
      destruct (Z.eqb_spec n 0) as [E|_]; [lia|].
      cbn [andb]. unfold s0. now rewrite poll_for_data_buffer.
    + intros Hz. assert (Hn : n = 0) by (unfold n; lia).
      now rewrite Hn.
Qed.

End Outgoing.

Lemma shutdown_with_pending_bytes_witness :
  snd (session_get_outgoing sample_msg_size
         (sample_established 100 0 true sample_bytes) (Some [x21])
         (at_ms 2000) (at_ms 2001) 11)
  = Some (packet_to_bytes (PACKET_TYPE_MSG 7 100 0 [x68; x65; x6c]) 0).
Proof.
  apply (shutdown_with_pending_bytes sample_msg_size
           (sample_established 100 0 true sample_bytes) (Some [x21])
           (at_ms 2000) (at_ms 2001) 11).
  - reflexivity.
  - reflexivity.
  - discriminate.
  - vm_compute. reflexivity.
  - vm_compute. discriminate.
Defined.

(** C9 as stated fails when the frame size budget leaves no room for
    payload: with a header of eight bytes and [max_length = 8], a shut down
    Established session holding five bytes peeks none of them and builds a
    FIN. *)
Lemma shutdown_with_pending_bytes_fin :
  let s := sample_established 100 0 true sample_bytes in
  state s = SESSION_STATE_ESTABLISHED /\
  is_shutdown s = true /\
  outgoing_buffer s <> [] /\
  time_ms (at_ms 2000) - last_transmit s > RETRANSMIT_DELAY /\
  snd (session_get_outgoing sample_msg_size s None (at_ms 2000) (at_ms 2001)
         (sample_msg_size (options s)))
  = Some (packet_to_bytes (PACKET_TYPE_FIN 7 "Stream closed") 0).
Proof.
  cbv zeta. split; [reflexivity|]. split; [reflexivity|].
  split; [discriminate|]. split; vm_compute; reflexivity.
Qed.

(** ** Shutdown *)

Lemma poll_for_data_when_shut_down (s : session_t) :
  is_shutdown s = true ->
  outgoing_buffer s = [] ->
  poll_for_data None s = s.
Proof.
  destruct s as [i st ts ms sh nm lt op buf]. cbn.
  intros -> ->. reflexivity.
Qed.

Section Shutdown.

Variable packet_get_msg_size : options_t -> Z.

(** A shut down Established session with an empty buffer, whose driver
    still has no data, answers every production call the timer lets
    through with a FIN, and records the emission time. *)
Lemma session_get_outgoing_fin
    (s : session_t) (t_check t_emit : timeval) (max_length : Z) :
  state s = SESSION_STATE_ESTABLISHED ->
  is_shutdown s = true ->
  outgoing_buffer s = [] ->
  time_ms t_check - last_transmit s > RETRANSMIT_DELAY ->
  session_get_outgoing packet_get_msg_size s None t_check t_emit max_length
  = (update_counter t_emit s,
     Some (packet_to_bytes (PACKET_TYPE_FIN (id s) "Stream closed")
             (options s))).
Proof.
  intros Hst Hshut Hbuf Hgo.
  rewrite session_get_outgoing_established by assumption.
  rewrite poll_for_data_when_shut_down by assumption.
  unfold established_frame. cbv zeta. rewrite Hbuf, Hshut.
  assert (Hbudget : 0 <= to_size_t (max_length - packet_get_msg_size (options s)))
    by (apply Z.mod_pos_bound; lia).
  cbn [List.length Z.of_nat]. rewrite Z.min_l by exact Hbudget.
  reflexivity.
Qed.

(** C2, as the code has it.  Once the driver has reported no more data
    to an Established session with an empty buffer, [is_shutdown] is set;
    while the driver keeps reporting no more data, the next production call
    whose timer allows transmission yields a FIN and records its emission
    time.  The call after that yields NULL, leaving the session as it is,
    if it comes within the retransmit delay of that emission, and yields
    the FIN once more if the delay has elapsed. *)
Theorem shutdown_emits_fin_every_interval
    (s : session_t) (c1 e1 c2 e2 : timeval) (m1 m2 : Z) :
  let s0 := poll_for_data None s in
  let r1 := session_get_outgoing packet_get_msg_size s0 None c1 e1 m1 in
  let r2 := session_get_outgoing packet_get_msg_size (fst r1) None c2 e2 m2 in
  let fin := Some (packet_to_bytes (PACKET_TYPE_FIN (id s) "Stream closed")
                     (options s)) in
  state s = SESSION_STATE_ESTABLISHED ->
  outgoing_buffer s = [] ->
  time_ms c1 - last_transmit s > RETRANSMIT_DELAY ->
  is_shutdown s0 = true /\
  snd r1 = fin /\
  last_transmit (fst r1) = time_ms e1 /\
  (time_ms c2 - time_ms e1 <= RETRANSMIT_DELAY ->
   snd r2 = None /\ fst r2 = fst r1) /\
  (time_ms c2 - time_ms e1 > RETRANSMIT_DELAY ->
   snd r2 = fin /\ last_transmit (fst r2) = time_ms e2).
Proof.
  intros s0 r1 r2 fin Hst Hbuf Hgo.
  destruct (poll_for_data_frame None s)
    as (Eid & Est & _ & _ & _ & Elt & Eop).
  fold s0 in Eid, Est, Elt, Eop.
  assert (Hshut0 : is_shutdown s0 = true).
  { unfold s0. rewrite poll_for_data_is_shutdown.
    unfold poll_shuts_down, buffer_get_remaining_bytes.
    rewrite Hbuf. apply orb_true_r. }
  assert (Hbuf0 : outgoing_buffer s0 = [])
    by (unfold s0; rewrite poll_for_data_buffer, Hbuf; reflexivity).
  assert (Hst0 : state s0 = SESSION_STATE_ESTABLISHED) by congruence.
  assert (E1 : r1 = (update_counter e1 s0, fin)).
  { unfold r1, fin. rewrite <- Eid, <- Eop.
    apply session_get_outgoing_fin; try assumption. now rewrite Elt. }
  split; [exact Hshut0|]. rewrite E1. cbn [fst snd].
  split; [reflexivity|]. split; [reflexivity|].
  split.
  - intros Hwait. unfold r2. rewrite E1. cbn [fst].
    rewrite session_get_outgoing_suppressed by exact Hwait.
    cbn [fst snd]. split; [reflexivity|].
    now apply poll_for_data_when_shut_down.
  - intros Hgo2. unfold r2. rewrite E1. cbn [fst].
    rewrite session_get_outgoing_fin; try assumption.
    cbn [fst snd]. unfold fin. rewrite <- Eid, <- Eop. auto.
Qed.

End Shutdown.

Lemma shutdown_emits_fin_every_interval_witness :
  let s := sample_established 100 0 false [] in
  let r1 := session_get_outgoing sample_msg_size (poll_for_data None s) None
              (at_ms 2000) (at_ms 2001) 100 in
  is_shutdown (poll_for_data None s) = true /\
  snd r1 = Some (packet_to_bytes (PACKET_TYPE_FIN 7 "Stream closed") 0).
Proof.
  destruct (shutdown_emits_fin_every_interval sample_msg_size
              (sample_established 100 0 false [])
              (at_ms 2000) (at_ms 2001) (at_ms 2500) (at_ms 2501) 100 100)
    as (Hshut & Hfin & _).
  - reflexivity.
  - reflexivity.
  - vm_compute. reflexivity.
  - split; [exact Hshut|exact Hfin].
Defined.

(** C2 as stated fails: nothing records that the FIN has been sent.  An
    Established session with an empty buffer learns at 500 ms that the
    driver has no more data and is shut down.  The production call at
    2000 ms yields a FIN, and so does the one at 4000 ms, where C2 has
    NULL.  A session still in state New that is shut down the same way
    yields a SYN, not a FIN. *)
Lemma shutdown_fin_repeats :
  let fin := Some (packet_to_bytes (PACKET_TYPE_FIN 7 "Stream closed") 0) in
  let a := session_get_outgoing sample_msg_size
             (sample_established 100 0 false []) None
             (at_ms 500) (at_ms 501) 100 in
  let b := session_get_outgoing sample_msg_size (fst a) None
             (at_ms 2000) (at_ms 2001) 100 in
  let c := session_get_outgoing sample_msg_size (fst b) None
             (at_ms 4000) (at_ms 4001) 100 in
  let a' := session_get_outgoing sample_msg_size sample_new None
              (at_ms 500) (at_ms 501) 100 in
  let b' := session_get_outgoing sample_msg_size (fst a') None
              (at_ms 2000) (at_ms 2001) 100 in
  (is_shutdown (fst a) = true /\ outgoing_buffer (fst a) = [] /\
   snd a = None /\ snd b = fin /\ snd c = fin) /\
  (is_shutdown (fst a') = true /\ outgoing_buffer (fst a') = [] /\
   snd a' = None /\
   snd b' = Some (packet_to_bytes (PACKET_TYPE_SYN 4660 22136 0) 0)).
Proof.
  cbv zeta. vm_compute. repeat split.
Qed.

(** ** Retransmission timer *)

Lemma last_transmit_poll (polled : option (list byte)) (s : session_t) :
  last_transmit (poll_for_data polled s) = last_transmit s.
Proof. apply poll_for_data_frame. Qed.

Section Timer.

Variable packet_get_msg_size : options_t -> Z.

(** A production call returns a frame exactly when the timer has
    expired, and records the emission time exactly then. *)
Lemma session_get_outgoing_gate
    (s : session_t) (polled : option (list byte))
    (t_check t_emit : timeval) (max_length : Z) :
  let r := session_get_outgoing packet_get_msg_size s polled t_check t_emit
             max_length in
  (time_ms t_check - last_transmit s <= RETRANSMIT_DELAY ->
   snd r = None /\ last_transmit (fst r) = last_transmit s) /\
  (time_ms t_check - last_transmit s > RETRANSMIT_DELAY ->
   snd r <> None /\ last_transmit (fst r) = time_ms t_emit).
Proof.
  cbv zeta.
  destruct (session_get_outgoing_session packet_get_msg_size s polled
              t_check t_emit max_length)
    as [(Hn & Hw & Hs)|(Hn & Hg & Hs)];
    rewrite Hs; split; intros H; try lia.
  - split; [exact Hn|apply last_transmit_poll].
  - split; [exact Hn|reflexivity].
Qed.

Lemma session_data_incoming_last_transmit
    (s s' : session_t) (polled : option (list byte)) (packet : packet_t)
    (calls : list driver_call) :
  session_data_incoming s polled packet = Returned s' calls ->
  last_transmit s' = last_transmit s.
Proof.
  unfold session_data_incoming.
  rewrite <- (last_transmit_poll polled s).
  destruct (state (poll_for_data polled s)), packet; cbn;
    try discriminate;
    repeat match goal with
           | |- context [if ?b then _ else _] => destruct b
           end;
    intros [= <- _]; reflexivity.
Qed.

(** Received frames, however many and whatever they hold, leave the
    recorded emission time alone. *)
Lemma run_incoming_last_transmit (cs : list call) :
  forall s s',
    forallb is_data_incoming cs = true ->
    run packet_get_msg_size s cs = Some s' ->
    last_transmit s' = last_transmit s.
Proof.
  induction cs as [|c cs IH]; intros s s' Hin Hrun; cbn in Hin, Hrun.
  - now injection Hrun as <-.
  - apply andb_prop in Hin. destruct Hin as [Hc Hcs].
    destruct c as [polled t_check t_emit max_length|polled packet];
      [discriminate Hc|].
    cbn [step] in Hrun.
    destruct (session_data_incoming s polled packet) as [s1 calls|code]
      eqn:Hstep; [|discriminate Hrun].
    rewrite (IH s1 s' Hcs Hrun).
    eapply session_data_incoming_last_transmit. exact Hstep.
Qed.

(** C7: of two production calls, the second reading the clock at most
    [RETRANSMIT_DELAY] ms after the reading the first one records as its
    emission time, at most one returns a frame; when the first returned a
    frame the second returns NULL and records no emission time.  A third
    call made once more than [RETRANSMIT_DELAY] ms have passed since the
    last emission returns a frame again, whatever the buffer holds.  Frames
    received between the calls ([between12], [between23]), acknowledgments
    included, change none of this. *)
Theorem retransmit_gate
    (s s1 s2 : session_t)
    (p1 p2 p3 : option (list byte)) (c1 e1 c2 e2 c3 e3 : timeval)
    (m1 m2 m3 : Z) (between12 between23 : list call) :
  let r1 := session_get_outgoing packet_get_msg_size s p1 c1 e1 m1 in
  let r2 := session_get_outgoing packet_get_msg_size s1 p2 c2 e2 m2 in
  let r3 := session_get_outgoing packet_get_msg_size s2 p3 c3 e3 m3 in
  forallb is_data_incoming between12 = true ->
  run packet_get_msg_size (fst r1) between12 = Some s1 ->
  forallb is_data_incoming between23 = true ->
  run packet_get_msg_size (fst r2) between23 = Some s2 ->
  time_ms c2 - time_ms e1 <= RETRANSMIT_DELAY ->
  (snd r1 = None \/ snd r2 = None) /\
  (snd r1 <> None ->
   snd r2 = None /\ last_transmit (fst r2) = last_transmit (fst r1)) /\
  (snd r2 = None -> last_transmit (fst r2) = last_transmit (fst r1)) /\
  (time_ms c3 - last_transmit (fst r2) > RETRANSMIT_DELAY ->
   snd r3 <> None /\ last_transmit (fst r3) = time_ms e3).
Proof.
  intros r1 r2 r3 Hin12 Hrun12 Hin23 Hrun23 Hclose.
  pose proof (run_incoming_last_transmit between12 _ _ Hin12 Hrun12) as L12.
  pose proof (run_incoming_last_transmit between23 _ _ Hin23 Hrun23) as L23.
  destruct (session_get_outgoing_gate s p1 c1 e1 m1) as [G1w G1g].
  destruct (session_get_outgoing_gate s1 p2 c2 e2 m2) as [G2w G2g].
  destruct (session_get_outgoing_gate s2 p3 c3 e3 m3) as [_ G3g].
  fold r1 in G1w, G1g. fold r2 in G2w, G2g. fold r3 in G3g.
  rewrite L12 in G2w, G2g. rewrite L23 in G3g.
  assert (Hfirst : snd r1 <> None ->
                   snd r2 = None /\
                   last_transmit (fst r2) = last_transmit (fst r1)).
  { intros Hsent.
    destruct (Z.le_gt_cases (time_ms c1 - last_transmit s) RETRANSMIT_DELAY)
      as [Hw|Hg].
    - destruct (G1w Hw) as [Hnone _]. contradiction.
    - destruct (G1g (Z.lt_gt _ _ Hg)) as [_ Hlt].
      apply G2w. rewrite Hlt. exact Hclose. }
  split; [|split; [exact Hfirst|split]].
  - destruct (snd r1) eqn:E1; [right|now left].
    apply Hfirst. discriminate.
  - intros Hnone.
    destruct (Z.le_gt_cases (time_ms c2 - last_transmit (fst r1))
                RETRANSMIT_DELAY) as [Hw|Hg].
    + apply G2w. exact Hw.
    + destruct (G2g (Z.lt_gt _ _ Hg)) as [Hsome _]. contradiction.
  - exact G3g.
Qed.

End Timer.

Lemma retransmit_gate_witness :
  let s := sample_established 100 0 false sample_bytes in
  let ack := [call_data_incoming None (PACKET_TYPE_MSG 7 0 105 [])] in
  let r1 := session_get_outgoing sample_msg_size s None
              (at_ms 1500) (at_ms 1501) 100 in
  let r2 := session_get_outgoing sample_msg_size
              (set_last_transmit 1501 (sample_established 105 0 false []))
              (Some sample_bytes) (at_ms 2501) (at_ms 2502) 100 in
  let r3 := session_get_outgoing sample_msg_size (fst r2) None
              (at_ms 2502) (at_ms 2503) 100 in
  snd r1 = Some (packet_to_bytes (PACKET_TYPE_MSG 7 100 0 sample_bytes) 0) /\
  run sample_msg_size (fst r1) ack
  = Some (set_last_transmit 1501 (sample_established 105 0 false [])) /\
  snd r2 = None /\
  snd r3 <> None.
Proof.
  cbv zeta.
  destruct (retransmit_gate sample_msg_size
              (sample_established 100 0 false sample_bytes)
              (set_last_transmit 1501 (sample_established 105 0 false []))
              (fst (session_get_outgoing sample_msg_size
                      (set_last_transmit 1501
                         (sample_established 105 0 false []))
                      (Some sample_bytes) (at_ms 2501) (at_ms 2502) 100))
              None (Some sample_bytes) None
              (at_ms 1500) (at_ms 1501) (at_ms 2501) (at_ms 2502)
              (at_ms 2502) (at_ms 2503) 100 100 100
              [call_data_incoming None (PACKET_TYPE_MSG 7 0 105 [])] [])
    as (_ & Hsecond & _ & Hthird).
  - reflexivity.
  - vm_compute. reflexivity.
  - reflexivity.
  - reflexivity.
  - vm_compute. discriminate.
  - split; [reflexivity|]. split; [vm_compute; reflexivity|]. split.
    + apply Hsecond. discriminate.
    + apply Hthird. vm_compute. reflexivity.
Defined.

(** ** The buffer and the state over the calls of the poll loop *)

Section Lifecycle.

Variable packet_get_msg_size : options_t -> Z.

Lemma session_get_outgoing_frame
    (s : session_t) (polled : option (list byte))
    (t_check t_emit : timeval) (max_length : Z) :
  let s' := fst (session_get_outgoing packet_get_msg_size s polled
                   t_check t_emit max_length) in
  state s' = state s /\
  outgoing_buffer s' = outgoing_buffer s ++ polled_bytes polled.
Proof.
  cbv zeta.
  destruct (session_get_outgoing_session packet_get_msg_size s polled
              t_check t_emit max_length)
    as [(_ & _ & Hs)|(_ & _ & Hs)];
    rewrite Hs; cbn;
    now rewrite poll_for_data_state, poll_for_data_buffer.
Qed.

(** C6: a production call never removes bytes from the buffer, which
    afterwards is the buffer before the call followed by the bytes polled
    from the driver.  A call of [session_data_incoming] that returns leaves
    the buffer the same way, unless it accepted a MSG in state
    Established, in which case exactly the acknowledged bytes are gone from
    the front. *)
Theorem buffer_shrinks_only_on_ack
    (s : session_t) (polled : option (list byte)) :
  let buffer := outgoing_buffer s ++ polled_bytes polled in
  (forall t_check t_emit max_length,
      outgoing_buffer
        (fst (session_get_outgoing packet_get_msg_size s polled
                t_check t_emit max_length))
      = buffer) /\
  (forall packet s' calls,
      session_data_incoming s polled packet = Returned s' calls ->
      outgoing_buffer s' = buffer \/
      exists sid ack data,
        packet = PACKET_TYPE_MSG sid (their_seq s) ack data /\
        state s = SESSION_STATE_ESTABLISHED /\
        (ack - my_seq s) mod 2 ^ 16 <= Z.of_nat (List.length buffer) /\
        outgoing_buffer s'
        = skipn (Z.to_nat ((ack - my_seq s) mod 2 ^ 16)) buffer).
Proof.
  cbv zeta. split.
  - intros. apply session_get_outgoing_frame.
  - intros packet s' calls Hrun.
    pose proof (poll_for_data_buffer polled s) as Hbuf.
    destruct (state s) eqn:Hst.
    + left. unfold session_data_incoming in Hrun.
      rewrite poll_for_data_state, Hst in Hrun.
      destruct packet; try discriminate Hrun;
        injection Hrun as <- _; cbn; exact Hbuf.
    + destruct packet as [sid seq opts|sid seq ack data|sid reason|ty].
      * left. unfold session_data_incoming in Hrun.
        rewrite poll_for_data_state, Hst in Hrun.
        injection Hrun as <- _. exact Hbuf.
      * destruct (Z.eq_dec seq (their_seq s)) as [Eseq|Nseq].
        -- destruct (Z_le_gt_dec ((ack - my_seq s) mod 2 ^ 16)
                       (Z.of_nat (List.length
                          (outgoing_buffer (poll_for_data polled s)))))
             as [Hok|Hbad].
           ++ right. exists sid, ack, data. subst seq.
              pose proof (session_data_incoming_msg_accepted
                            s polled sid (their_seq s) ack data) as Hacc.
              cbv zeta in Hacc. rewrite bytes_acked_after_poll in Hacc.
              rewrite Hacc in Hrun by (assumption || reflexivity).
              injection Hrun as <- _. cbn.
              rewrite <- Hbuf. auto.
           ++ left.
              rewrite session_data_incoming_msg_rejected in Hrun
                by (assumption || now right).
              injection Hrun as <- _. exact Hbuf.
        -- left.
           rewrite session_data_incoming_msg_rejected in Hrun
             by (assumption || now left).
           injection Hrun as <- _. exact Hbuf.
      * left. unfold session_data_incoming in Hrun.
        rewrite poll_for_data_state, Hst in Hrun.
        injection Hrun as <- _. cbn. exact Hbuf.
      * left. unfold session_data_incoming in Hrun.
        rewrite poll_for_data_state, Hst in Hrun.
        injection Hrun as <- _. cbn. exact Hbuf.
Qed.

(** *** The state *)

Lemma step_state (s s' : session_t) (c : call) :
  step packet_get_msg_size s c = Some s' ->
  state s' = state s \/
  (state s = SESSION_STATE_NEW /\ state s' = SESSION_STATE_ESTABLISHED).
Proof.
  destruct c as [polled t_check t_emit max_length|polled packet];
    cbn [step].
  - intros [= <-]. left. apply session_get_outgoing_frame.
  - unfold session_data_incoming. rewrite poll_for_data_state.
    set (s0 := poll_for_data polled s).
    assert (Hst0 : state s0 = state s) by apply poll_for_data_state.
    destruct (state s) eqn:Hst; destruct packet; cbn;
      try discriminate;
      repeat match goal with
             | |- context [if ?b then _ else _] => destruct b
             end;
      intros [= <-]; cbn; auto.
Qed.

Lemma step_established (s : session_t) (c : call) :
  state s = SESSION_STATE_ESTABLISHED ->
  exists s',
    step packet_get_msg_size s c = Some s' /\
    state s' = SESSION_STATE_ESTABLISHED.
Proof.
  intros Hst.
  destruct (step packet_get_msg_size s c) as [s'|] eqn:Hstep.
  - exists s'. split; [reflexivity|].
    destruct (step_state s s' c Hstep) as [E|[E _]]; congruence.
  - exfalso. destruct c as [polled t_check t_emit max_length|polled packet];
      cbn [step] in Hstep; [discriminate|].
    unfold session_data_incoming in Hstep.
    rewrite poll_for_data_state, Hst in Hstep.
    destruct packet; cbn in Hstep;
      repeat match type of Hstep with
             | context [if ?b then _ else _] => destruct b
             end;
      discriminate.
Qed.

(** C5: a session is created in state New; a call of the poll loop
    either leaves the state as it is or takes it from New to Established;
    so does every sequence of calls; and an Established session survives
    every sequence of calls and is Established after it. *)
Theorem state_only_moves_forward (s : session_t) (cs : list call) :
  (forall isn rand_id rand_seq options0 name,
      state (session_create isn rand_id rand_seq options0 name)
      = SESSION_STATE_NEW) /\
  (forall c s',
      step packet_get_msg_size s c = Some s' ->
      state s' = state s \/
      (state s = SESSION_STATE_NEW /\ state s' = SESSION_STATE_ESTABLISHED)) /\
  (forall s',
      run packet_get_msg_size s cs = Some s' ->
      state s' = state s \/
      (state s = SESSION_STATE_NEW /\ state s' = SESSION_STATE_ESTABLISHED)) /\
  (state s = SESSION_STATE_ESTABLISHED ->
   exists s',
     run packet_get_msg_size s cs = Some s' /\
     state s' = SESSION_STATE_ESTABLISHED).
Proof.
  split; [reflexivity|].
  split; [intros c s'; apply step_state|].
  split.
  - revert s. induction cs as [|c cs IH]; intros s s' Hrun; cbn in Hrun.
    + injection Hrun as <-. now left.
    + destruct (step packet_get_msg_size s c) as [s1|] eqn:Hstep;
        [|discriminate].
      destruct (step_state s s1 c Hstep) as [E1|[E1 E1']];
        destruct (IH s1 s' Hrun) as [E2|[E2 E2']];
        destruct (state s), (state s1), (state s');
        try discriminate; auto.
  - revert s. induction cs as [|c cs IH]; intros s Hst; cbn.
    + exists s. auto.
    + destruct (step_established s c Hst) as (s1 & Hstep & Hst1).
      rewrite Hstep. apply IH. exact Hst1.
Qed.

End Lifecycle.

Lemma buffer_shrinks_only_on_ack_witness :
  let s := sample_established 100 0 false sample_bytes in
  let s' := sample_established 102 1 false [x6c; x6c; x6f; x21] in
  outgoing_buffer s' = outgoing_buffer s ++ polled_bytes (Some [x21]) \/
  exists sid ack data,
    PACKET_TYPE_MSG 7 0 102 [x41] = PACKET_TYPE_MSG sid (their_seq s) ack data /\
    state s = SESSION_STATE_ESTABLISHED /\
    (ack - my_seq s) mod 2 ^ 16
    <= Z.of_nat (List.length (outgoing_buffer s ++ polled_bytes (Some [x21]))) /\
    outgoing_buffer s'
    = skipn (Z.to_nat ((ack - my_seq s) mod 2 ^ 16))
        (outgoing_buffer s ++ polled_bytes (Some [x21])).
Proof.
  cbv zeta.
  apply (proj2 (buffer_shrinks_only_on_ack sample_msg_size
                  (sample_established 100 0 false sample_bytes)
                  (Some [x21]))
           (PACKET_TYPE_MSG 7 0 102 [x41])
           (sample_established 102 1 false [x6c; x6c; x6f; x21])
           [driver_data_received [x41]]).
  vm_compute. reflexivity.
Defined.

Lemma state_only_moves_forward_witness :
  exists s',
    run sample_msg_size (sample_established 100 0 false sample_bytes)
      [ call_data_incoming None (PACKET_TYPE_SYN 7 0x1234 0);
        call_get_outgoing (Some [x21]) (at_ms 2000) (at_ms 2001) 100;
        call_data_incoming None (PACKET_TYPE_MSG 7 0 105 [x41]);
        call_data_incoming None (PACKET_TYPE_FIN 7 "bye");
        call_data_incoming None (PACKET_TYPE_UNKNOWN 255);
        call_get_outgoing None (at_ms 4000) (at_ms 4001) 100 ]
    = Some s' /\
    state s' = SESSION_STATE_ESTABLISHED.
Proof.
  apply (state_only_moves_forward sample_msg_size
           (sample_established 100 0 false sample_bytes)).
  reflexivity.
Defined.

(** ** Session creation *)

Lemma rand_mod_0xFFFF (r : Z) :
  0 <= r -> to_uint16 (Z.rem r 0xFFFF) = Z.rem r 0xFFFF /\
            0 <= Z.rem r 0xFFFF < 0xFFFF.
Proof.
  intros Hr.
  assert (Hb : 0 <= Z.rem r 0xFFFF < 0xFFFF) by (apply Z.rem_bound_pos; lia).
  split; [|exact Hb].
  apply to_uint16_small. unfold is_uint16, uint16_max. lia.
Qed.

(** C10: [rand] returning non-negative values, a session created while
    no ISN override is set has an id and a [my_seq] strictly below
    [0xFFFF]; after [debug_set_isn v] with [v <= 0xFFFF], [my_seq] is [v]
    (the id is still drawn below [0xFFFF]). *)
Theorem session_create_isn
    (rand_id rand_seq : Z) (options0 : options_t) (name : option string) :
  0 <= rand_id ->
  0 <= rand_seq ->
  (let s := session_create isn_default rand_id rand_seq options0 name in
   0 <= id s < 0xFFFF /\ 0 <= my_seq s < 0xFFFF) /\
  (forall v,
      0 <= v <= 0xFFFF ->
      let s := session_create (debug_set_isn v) rand_id rand_seq options0
                 name in
      my_seq s = v /\ 0 <= id s < 0xFFFF).
Proof.
  intros Hid Hseq.
  destruct (rand_mod_0xFFFF rand_id Hid) as [Eid Bid].
  destruct (rand_mod_0xFFFF rand_seq Hseq) as [Eseq Bseq].
  split.
  - cbv zeta. unfold session_create. cbn [id my_seq].
    change (isn_default =? Z.land isn_default 0xFFFF) with false.
    cbv iota. rewrite Eid, Eseq. split; assumption.
  - intros v Hv. cbv zeta. unfold session_create. cbn [id my_seq].
    assert (Ev : debug_set_isn v = v)
      by (apply to_uint16_small; exact Hv).
    rewrite Ev, land_0xFFFF.
    assert (Em : v mod 2 ^ 16 = v) by (apply Z.mod_small; lia).
    rewrite Em, Z.eqb_refl, Eid.
    split; [apply to_uint16_small; exact Hv|assumption].
Qed.

Lemma session_create_isn_witness :
  (let s := session_create isn_default 65535 131069 0 None in
   0 <= id s < 0xFFFF /\ 0 <= my_seq s < 0xFFFF) /\
  my_seq (session_create (debug_set_isn 0xFFFF) 65535 131069 0 None) = 0xFFFF.
Proof.
  destruct (session_create_isn 65535 131069 0 None) as [Hrandom Hfixed];
    try lia.
  split; [exact Hrandom|].
  apply (Hfixed 0xFFFF). lia.
Defined.

(** * Further properties of the session code *)

(** ** Dispatch of received frames *)

(** Splits a goal about [session_data_incoming] into the branches of its
    two switches and of the SEQ, ACK and payload tests. *)
Ltac incoming_branches s polled packet :=
  unfold session_data_incoming;
  destruct (state (poll_for_data polled s)) eqn:?, packet; cbn;
  repeat match goal with
         | |- context [if ?b then _ else _] => destruct b eqn:?
         end.



(** [session_data_incoming] ends the process in exactly two cases, both
    in state New: on a FIN, with exit code 0, and on a frame of unknown
    type, with exit code 1.  It never exits once Established. *)
Theorem exits_only_in_new
    (s : session_t) (polled : option (list byte)) (packet : packet_t)
    (code : Z) :
  session_data_incoming s polled packet = Exited code <->
  state s = SESSION_STATE_NEW /\
  ((exists sid reason, packet = PACKET_TYPE_FIN sid reason) /\ code = 0 \/
   (exists ty, packet = PACKET_TYPE_UNKNOWN ty) /\ code = 1).
Proof.
  pose proof (poll_for_data_state polled s) as Est.
  split.
  - incoming_branches s polled packet; intros H; try discriminate H;
      injection H as <-; (split; [congruence|]); eauto.
  - intros (Hst & [((sid & reason & ->) & ->)|((ty & ->) & ->)]);
      unfold session_data_incoming; rewrite Est, Hst; reflexivity.
Qed.

Lemma exits_only_in_new_witness :
  session_data_incoming sample_new None (PACKET_TYPE_FIN 7 "bye") = Exited 0 /\
  session_data_incoming sample_new None (PACKET_TYPE_UNKNOWN 255) = Exited 1.
Proof.
  split.
  - apply (exits_only_in_new sample_new None (PACKET_TYPE_FIN 7 "bye") 0).
    split; [reflexivity|]. left. eauto.
  - apply (exits_only_in_new sample_new None (PACKET_TYPE_UNKNOWN 255) 1).
    split; [reflexivity|]. right. eauto.
Defined.



(** ** What a returning call of [session_data_incoming] leaves *)

(** The four ways [session_data_incoming] returns, with the session it
    leaves in each: the frame was ignored or dropped; the handshake
    completed; the session was closed; a MSG was accepted. *)
Lemma session_data_incoming_returned
    (s s' : session_t) (polled : option (list byte)) (packet : packet_t)
    (calls : list driver_call) :
  session_data_incoming s polled packet = Returned s' calls ->
  let s0 := poll_for_data polled s in
  (s' = s0 /\ calls = []) \/
  (exists sid seq opts,
      packet = PACKET_TYPE_SYN sid seq opts /\
      state s = SESSION_STATE_NEW /\
      s' = set_state SESSION_STATE_ESTABLISHED
             (set_options opts (set_their_seq seq s0)) /\
      calls = []) \/
  (closes_session packet = true /\
   state s = SESSION_STATE_ESTABLISHED /\
   s' = set_is_shutdown true s0 /\
   calls = [driver_close]) \/
  (exists sid ack data,
      packet = PACKET_TYPE_MSG sid (their_seq s) ack data /\
      state s = SESSION_STATE_ESTABLISHED /\
      (ack - my_seq s) mod 2 ^ 16
      <= Z.of_nat (List.length (outgoing_buffer s0)) /\
      s' = {| id := id s0; state := SESSION_STATE_ESTABLISHED;
              their_seq :=
                (their_seq s + Z.of_nat (List.length data)) mod 2 ^ 16;
              my_seq :=
                if (ack - my_seq s) mod 2 ^ 16 =? 0 then my_seq s
                else (my_seq s + (ack - my_seq s) mod 2 ^ 16) mod 2 ^ 16;
              is_shutdown := is_shutdown s0; name := name s0;
              last_transmit := last_transmit s0; options := options s0;
              outgoing_buffer :=
                skipn (Z.to_nat ((ack - my_seq s) mod 2 ^ 16))
                  (outgoing_buffer s0) |} /\
      calls = match data with
              | [] => []
              | _ :: _ => [driver_data_received data]
              end).
Proof.
  intros Hrun s0.
  destruct (poll_for_data_frame polled s) as (_ & Est & Ets & Ems & _).
  fold s0 in Est, Ets, Ems.
  destruct (state s) eqn:Hst.
  - unfold session_data_incoming in Hrun. fold s0 in Hrun.
    rewrite Est in Hrun.
    destruct packet as [sid seq opts|sid seq ack data|sid reason|ty];
      try discriminate Hrun; injection Hrun as <- <-.
    + right. left. exists sid, seq, opts. auto.
    + left. auto.
  - destruct packet as [sid seq opts|sid seq ack data|sid reason|ty].
    + unfold session_data_incoming in Hrun. fold s0 in Hrun.
      rewrite Est in Hrun. injection Hrun as <- <-. left. auto.
    + destruct (Z.eq_dec seq (their_seq s)) as [Eseq|Nseq].
      * destruct (Z_le_gt_dec ((ack - my_seq s) mod 2 ^ 16)
                    (Z.of_nat (List.length (outgoing_buffer s0))))
          as [Hok|Hbad].
        -- right. right. right. exists sid, ack, data. subst seq.
           pose proof (session_data_incoming_msg_accepted
                         s polled sid (their_seq s) ack data) as Hacc.
           cbv zeta in Hacc. fold s0 in Hacc.
           unfold s0 in Hacc at 1 5 7.
           rewrite bytes_acked_after_poll in Hacc.
           fold s0 in Hacc.
           rewrite Hacc in Hrun by (assumption || reflexivity).
           injection Hrun as <- <-. rewrite Ets, Ems. auto.
        -- left.
           rewrite session_data_incoming_msg_rejected in Hrun
             by (assumption || now right).
           injection Hrun as <- <-. auto.
      * left.
        rewrite session_data_incoming_msg_rejected in Hrun
          by (assumption || now left).
        injection Hrun as <- <-. auto.
    + unfold session_data_incoming in Hrun. fold s0 in Hrun.
      rewrite Est in Hrun. injection Hrun as <- <-.
      right. right. left. auto.
    + unfold session_data_incoming in Hrun. fold s0 in Hrun.
      rewrite Est in Hrun. injection Hrun as <- <-.
      right. right. left. auto.
Qed.

(** ** Invariants of the poll loop *)

Section Invariants.

Variable packet_get_msg_size : options_t -> Z.

(** Replaces the session after a call, in [Hstep], by each of the shapes
    it can have: the polled session, with the emission time recorded or
    not, after a production call; one of the four of
    [session_data_incoming_returned] after a received frame. *)
Ltac step_shapes Hstep :=
  match type of Hstep with
  | step _ ?s ?c = Some _ =>
      let polled := fresh "polled" in
      let packet := fresh "packet" in
      let Hinc := fresh "Hinc" in
      destruct c as [polled ?t_check ?t_emit ?max_length|polled packet];
      cbn [step call_polled] in *;
      [ injection Hstep as <-;
        let E := fresh "E" in
        destruct (session_get_outgoing_session packet_get_msg_size s polled
                    t_check t_emit max_length)
          as [(_ & _ & E)|(_ & _ & E)];
        rewrite E
      | destruct (session_data_incoming s polled packet)
          as [?s1 ?calls|?code] eqn:Hinc;
        [ injection Hstep as <-;
          apply session_data_incoming_returned in Hinc;
          cbv zeta in Hinc;
          destruct Hinc
            as [(-> & _)
               |[(?sid & ?seq & ?opts & -> & ?Hnew & -> & _)
                |[(?Hclose & ?Hest & -> & _)
                 |(?sid & ?ack & ?data & -> & ?Hest & ?Hack & -> & _)]]]
        | discriminate Hstep ] ]
  end.

Lemma run_invariant (P : session_t -> Prop) :
  (forall s c s', P s -> step packet_get_msg_size s c = Some s' -> P s') ->
  forall cs s s',
    P s -> run packet_get_msg_size s cs = Some s' -> P s'.
Proof.
  intros Hstep. induction cs as [|c cs IH]; intros s s' HP Hrun; cbn in Hrun.
  - now injection Hrun as <-.
  - destruct (step packet_get_msg_size s c) as [s1|] eqn:E; [|discriminate].
    eapply IH; [|exact Hrun]. eapply Hstep; eassumption.
Qed.

Lemma step_is_shutdown (s s' : session_t) (c : call) :
  step packet_get_msg_size s c = Some s' ->
  (is_shutdown s = true -> is_shutdown s' = true) /\
  (is_shutdown s' = true ->
   is_shutdown s = true \/
   poll_shuts_down (call_polled c) s = true \/
   (state s = SESSION_STATE_ESTABLISHED /\
    exists polled packet,
      c = call_data_incoming polled packet /\
      closes_session packet = true)).
Proof.
  intros Hstep. split.
  - intros Hs.
    step_shapes Hstep; cbn;
      rewrite ?poll_for_data_is_shutdown, ?Hs; reflexivity.
  - step_shapes Hstep; cbn; rewrite ?poll_for_data_is_shutdown;
      intros H; try (apply orb_prop in H; tauto).
    right. right. eauto.
Qed.

(** The shutdown flag is never cleared.  A call sets it only when the
    driver had no more data for an empty buffer, or when an Established
    session receives a FIN or a frame of unknown type; once set it stays
    set through every sequence of calls. *)
Theorem shutdown_is_sticky (s : session_t) (cs : list call) :
  (forall c s',
      step packet_get_msg_size s c = Some s' ->
      is_shutdown s' = true ->
      is_shutdown s = true \/
      poll_shuts_down (call_polled c) s = true \/
      (state s = SESSION_STATE_ESTABLISHED /\
       exists polled packet,
         c = call_data_incoming polled packet /\
         closes_session packet = true)) /\
  (forall s',
      is_shutdown s = true ->
      run packet_get_msg_size s cs = Some s' ->
      is_shutdown s' = true).
Proof.
  split.
  - intros c s' Hstep. apply (step_is_shutdown s s' c Hstep).
  - intros s' Hshut Hrun.
    apply (run_invariant (fun s => is_shutdown s = true)) with (cs := cs) (s := s);
      try assumption.
    intros s1 c s2 H1 Hstep. now apply (step_is_shutdown s1 s2 c Hstep).
Qed.

Lemma step_identity (s s' : session_t) (c : call) :
  step packet_get_msg_size s c = Some s' ->
  id s' = id s /\ name s' = name s /\
  (state s = SESSION_STATE_ESTABLISHED ->
   state s' = SESSION_STATE_ESTABLISHED /\ options s' = options s).
Proof.
  intros Hstep.
  destruct (poll_for_data_frame (call_polled c) s)
    as (Eid & Est & _ & _ & Enm & _ & Eop).
  step_shapes Hstep; cbn; rewrite ?Eid, ?Enm, ?Eop, ?Est;
    repeat split; try assumption; congruence.
Qed.

(** The id and the name of a session never change, and once the session
    is Established neither do its options: whatever calls are made, the
    session that is left has the id and name it was created with, and the
    options adopted at the handshake. *)
Theorem identity_is_immutable (s s' : session_t) (cs : list call) :
  run packet_get_msg_size s cs = Some s' ->
  id s' = id s /\ name s' = name s /\
  (state s = SESSION_STATE_ESTABLISHED -> options s' = options s).
Proof.
  revert s. induction cs as [|c cs IH]; intros s Hrun; cbn in Hrun.
  - injection Hrun as <-. auto.
  - destruct (step packet_get_msg_size s c) as [s1|] eqn:Hstep;
      [|discriminate].
    destruct (step_identity s s1 c Hstep) as (E1 & E2 & E3).
    destruct (IH s1 Hrun) as (F1 & F2 & F3).
    split; [congruence|]. split; [congruence|].
    intros Hst. destruct (E3 Hst) as [Hst1 Hop1].
    rewrite (F3 Hst1). exact Hop1.
Qed.

Lemma step_16bit (s s' : session_t) (c : call) :
  syn_seq_16bit c = true ->
  step packet_get_msg_size s c = Some s' ->
  is_uint16 (my_seq s) /\ is_uint16 (their_seq s) ->
  is_uint16 (my_seq s') /\ is_uint16 (their_seq s').
Proof.
  intros Hwf Hstep [Hmy Hth].
  destruct (poll_for_data_frame (call_polled c) s)
    as (_ & _ & Ets & Ems & _).
  assert (Hmod : forall z, is_uint16 (z mod 2 ^ 16)).
  { intros z. unfold is_uint16, uint16_max.
    pose proof (Z.mod_pos_bound z (2 ^ 16)). lia. }
  step_shapes Hstep; cbn in *; rewrite ?Ets, ?Ems; try (split; assumption).
  - split; [assumption|].
    apply andb_prop in Hwf. unfold is_uint16. lia.
  - split; [|apply Hmod].
    match goal with
    | |- context [if ?b then _ else _] => destruct b
    end; [assumption|apply Hmod].
Qed.

(** The sequence numbers are 16-bit values throughout: a new session has
    [my_seq] and [their_seq] in [0, 0xFFFF], and every sequence of calls
    in which the SYN frames received carry a 16-bit sequence number keeps
    them there. *)
Theorem sequence_numbers_stay_16bit
    (s s' : session_t) (cs : list call)
    (isn rand_id rand_seq : Z) (options0 : options_t)
    (nm : option string) :
  s = session_create isn rand_id rand_seq options0 nm \/
  (is_uint16 (my_seq s) /\ is_uint16 (their_seq s)) ->
  forallb syn_seq_16bit cs = true ->
  run packet_get_msg_size s cs = Some s' ->
  is_uint16 (my_seq s') /\ is_uint16 (their_seq s').
Proof.
  intros Hinit.
  assert (H0 : is_uint16 (my_seq s) /\ is_uint16 (their_seq s)).
  { destruct Hinit as [->|H]; [|exact H].
    unfold session_create, is_uint16, uint16_max. cbn [my_seq their_seq].
    split; [|lia].
    destruct (isn =? Z.land isn 0xFFFF);
      match goal with
      | |- _ <= to_uint16 ?z <= _ => pose proof (to_uint16_range z); lia
      end. }
  clear Hinit. revert s H0.
  induction cs as [|c cs IH]; intros s H0 Hwf Hrun; cbn in Hwf, Hrun.
  - now injection Hrun as <-.
  - apply andb_prop in Hwf. destruct Hwf as [Hc Hcs].
    destruct (step packet_get_msg_size s c) as [s1|] eqn:Hstep;
      [|discriminate].
    apply (IH s1); try assumption.
    eapply step_16bit; eassumption.
Qed.

Lemma step_stream_position (s s' : session_t) (c : call) :
  step packet_get_msg_size s c = Some s' ->
  (my_seq s' + Z.of_nat (List.length (outgoing_buffer s'))) mod 2 ^ 16
  = (my_seq s + Z.of_nat (List.length (outgoing_buffer s))
     + Z.of_nat (List.length (polled_bytes (call_polled c)))) mod 2 ^ 16.
Proof.
  intros Hstep.
  destruct (poll_for_data_frame (call_polled c) s)
    as (_ & _ & _ & Ems & _).
  pose proof (poll_for_data_buffer (call_polled c) s) as Ebuf.
  step_shapes Hstep; cbn in *; rewrite ?Ems, ?Ebuf, ?length_app, ?Nat2Z.inj_add;
    try (f_equal; lia).
  rewrite Ebuf, length_app, Nat2Z.inj_add in Hack.
  match goal with
  | |- context [Z.to_nat ?k] => set (n := k) in *
  end.
  assert (Hn : 0 <= n) by (apply Z.mod_pos_bound; lia).
  rewrite length_skipn, length_app.
  rewrite Nat2Z.inj_sub by lia. rewrite Z2Nat.id by exact Hn.
  rewrite Nat2Z.inj_add.
  destruct (Z.eqb_spec n 0) as [E0|N0].
  - f_equal. lia.
  - rewrite Zplus_mod_idemp_l. f_equal. lia.
Qed.

(** [my_seq] plus the number of buffered bytes is, modulo 2^16, the
    position in the outgoing stream of the next byte the driver will
    supply: over any sequence of calls it advances by exactly the number
    of bytes the driver supplied, whatever was acknowledged meanwhile. *)
Theorem stream_position_invariant (s s' : session_t) (cs : list call) :
  run packet_get_msg_size s cs = Some s' ->
  (my_seq s' + Z.of_nat (List.length (outgoing_buffer s'))) mod 2 ^ 16
  = (my_seq s + Z.of_nat (List.length (outgoing_buffer s))
     + Z.of_nat (List.length (supplied cs))) mod 2 ^ 16.
Proof.
  revert s. induction cs as [|c cs IH]; intros s Hrun; cbn in Hrun.
  - injection Hrun as <-. cbn. f_equal. lia.
  - destruct (step packet_get_msg_size s c) as [s1|] eqn:Hstep;
      [|discriminate].
    rewrite (IH s1 Hrun).
    pose proof (step_stream_position s s1 c Hstep) as Hs.
    unfold supplied. cbn [flat_map]. fold (supplied cs).
    rewrite length_app, Nat2Z.inj_add.
    set (x := Z.of_nat (List.length (supplied cs))).
    rewrite <- (Zplus_mod_idemp_l
                  (my_seq s1 + Z.of_nat (List.length (outgoing_buffer s1))) x).
    rewrite Hs, Zplus_mod_idemp_l. f_equal. lia.
Qed.

End Invariants.

Lemma shutdown_is_sticky_witness :
  is_shutdown
    (set_last_transmit 4001
       (sample_established 100 0 true
          (sample_bytes ++ sample_bytes ++ [x21])))
  = true.
Proof.
  apply (proj2 (shutdown_is_sticky sample_msg_size
                  (sample_established 100 0 true sample_bytes)
                  sample_calls)).
  - reflexivity.
  - vm_compute. reflexivity.
Defined.

Lemma identity_is_immutable_witness :
  id sample_after_calls = id sample_new /\
  name sample_after_calls = name sample_new /\
  (state sample_new = SESSION_STATE_ESTABLISHED ->
   options sample_after_calls = options sample_new).
Proof.
  apply (identity_is_immutable sample_msg_size sample_new sample_after_calls
           sample_calls).
  vm_compute. reflexivity.
Defined.

Lemma sequence_numbers_stay_16bit_witness :
  is_uint16 (my_seq sample_after_calls) /\
  is_uint16 (their_seq sample_after_calls).
Proof.
  apply (sequence_numbers_stay_16bit sample_msg_size
           sample_new sample_after_calls sample_calls
           isn_default 4660 22136 0 (Some "console"%string)).
  - left. reflexivity.
  - reflexivity.
  - vm_compute. reflexivity.
Defined.

Lemma stream_position_invariant_witness :
  (my_seq sample_after_calls
   + Z.of_nat (List.length (outgoing_buffer sample_after_calls))) mod 2 ^ 16
  = (my_seq sample_new + Z.of_nat (List.length (outgoing_buffer sample_new))
     + Z.of_nat (List.length (supplied sample_calls))) mod 2 ^ 16.
Proof.
  apply (stream_position_invariant sample_msg_size sample_new
           sample_after_calls sample_calls).
  vm_compute. reflexivity.
Defined.

(** ** Frames produced *)

Section Frames.

Variable packet_get_msg_size : options_t -> Z.

(** What is known of a production call that returned a MSG. *)
Lemma session_get_outgoing_msg
    (s : session_t) (polled : option (list byte))
    (t_check t_emit : timeval) (max_length : Z)
    (i sq ak : Z) (d : list byte) (o : options_t) :
  snd (session_get_outgoing packet_get_msg_size s polled t_check t_emit
         max_length)
  = Some (packet_to_bytes (PACKET_TYPE_MSG i sq ak d) o) ->
  let buffer := outgoing_buffer s ++ polled_bytes polled in
  let n := Z.min (Z.of_nat (List.length buffer))
             (to_size_t (max_length - packet_get_msg_size (options s))) in
  state s = SESSION_STATE_ESTABLISHED /\
  time_ms t_check - last_transmit s > RETRANSMIT_DELAY /\
  i = id s /\ sq = my_seq s /\ ak = their_seq s /\ o = options s /\
  d = firstn (Z.to_nat n) buffer.
Proof.
  intros Hmsg. cbv zeta.
  destruct (poll_for_data_frame polled s)
    as (Eid & _ & Ets & Ems & _ & _ & Eop).
  pose proof (poll_for_data_buffer polled s) as Ebuf.
  destruct (Z.le_gt_cases (time_ms t_check - last_transmit s)
              RETRANSMIT_DELAY) as [Hwait|Hgo].
  - rewrite session_get_outgoing_suppressed in Hmsg by assumption.
    discriminate Hmsg.
  - apply Z.lt_gt in Hgo.
    destruct (state s) eqn:Hst.
    + rewrite session_get_outgoing_new in Hmsg by assumption.
      discriminate Hmsg.
    + rewrite session_get_outgoing_established in Hmsg by assumption.
      cbn [snd] in Hmsg. unfold established_frame in Hmsg.
      cbv zeta in Hmsg. rewrite Eid, Ets, Ems, Eop, Ebuf in Hmsg.
      match type of Hmsg with
      | context [if ?b then _ else _] => destruct b
      end; [discriminate Hmsg|].
      injection Hmsg as <- <- <- <- <-. auto 10.
Qed.

(** A MSG produced under a frame size budget [max_length] carries a
    prefix of the buffer no longer than the payload budget; when
    [max_length] is at least the header size, header and payload together
    do not exceed [max_length]. *)
Theorem msg_payload_within_budget
    (s : session_t) (polled : option (list byte))
    (t_check t_emit : timeval) (max_length : Z)
    (i sq ak : Z) (d : list byte) (o : options_t) :
  snd (session_get_outgoing packet_get_msg_size s polled t_check t_emit
         max_length)
  = Some (packet_to_bytes (PACKET_TYPE_MSG i sq ak d) o) ->
  (exists rest, outgoing_buffer s ++ polled_bytes polled = d ++ rest) /\
  Z.of_nat (List.length d)
  <= to_size_t (max_length - packet_get_msg_size (options s)) /\
  (packet_get_msg_size (options s) <= max_length
   < packet_get_msg_size (options s) + 2 ^ 64 ->
   packet_get_msg_size (options s) + Z.of_nat (List.length d) <= max_length).
Proof.
  intros Hmsg.
  apply session_get_outgoing_msg in Hmsg. cbv zeta in Hmsg.
  destruct Hmsg as (_ & _ & _ & _ & _ & _ & ->).
  set (buffer := outgoing_buffer s ++ polled_bytes polled).
  set (budget := to_size_t (max_length - packet_get_msg_size (options s))).
  assert (Hbudget : 0 <= budget) by (apply Z.mod_pos_bound; lia).
  assert (Hlen : Z.of_nat
                   (List.length
                      (firstn
                         (Z.to_nat (Z.min (Z.of_nat (List.length buffer))
                                      budget)) buffer))
                 <= budget)
    by (rewrite length_firstn; lia).
  split; [|split].
  - eexists. symmetry. apply firstn_skipn.
  - exact Hlen.
  - intros Hfit.
    assert (E : budget = max_length - packet_get_msg_size (options s))
      by (apply Z.mod_small; lia).
    lia.
Qed.

(** Before the handshake no application data leaves the session: a
    production call on a session in state New returns NULL while the timer
    holds, and otherwise the SYN carrying the session's id and [my_seq]
    with no options, whatever the buffer holds.  The session stays New
    with the same id and [my_seq], and the bytes polled from the driver
    wait in the buffer. *)
Theorem new_session_sends_only_syn
    (s : session_t) (polled : option (list byte))
    (t_check t_emit : timeval) (max_length : Z) :
  let r := session_get_outgoing packet_get_msg_size s polled t_check t_emit
             max_length in
  state s = SESSION_STATE_NEW ->
  (time_ms t_check - last_transmit s <= RETRANSMIT_DELAY -> snd r = None) /\
  (time_ms t_check - last_transmit s > RETRANSMIT_DELAY ->
   snd r = Some (packet_to_bytes (PACKET_TYPE_SYN (id s) (my_seq s) 0)
                   (options s))) /\
  state (fst r) = SESSION_STATE_NEW /\
  id (fst r) = id s /\
  my_seq (fst r) = my_seq s /\
  outgoing_buffer (fst r) = outgoing_buffer s ++ polled_bytes polled.
Proof.
  intros r Hst.
  destruct (poll_for_data_frame polled s) as (Eid & Est & _ & Ems & _).
  pose proof (poll_for_data_buffer polled s) as Ebuf.
  split; [|split].
  - intros Hwait. unfold r.
    now rewrite session_get_outgoing_suppressed.
  - intros Hgo. unfold r.
    now rewrite session_get_outgoing_new.
  - destruct (session_get_outgoing_session packet_get_msg_size s polled
                t_check t_emit max_length) as [(_ & _ & E)|(_ & _ & E)];
      fold r in E; rewrite E; cbn; rewrite Eid, Est, Ems, Ebuf; auto.
Qed.

End Frames.

Lemma msg_payload_within_budget_witness :
  (exists rest, sample_bytes ++ polled_bytes (Some [x21])
                = [x68; x65; x6c] ++ rest) /\
  Z.of_nat (List.length [x68; x65; x6c]) <= to_size_t (11 - 8) /\
  (8 <= 11 < 8 + 2 ^ 64 -> 8 + Z.of_nat (List.length [x68; x65; x6c]) <= 11).
Proof.
  apply (msg_payload_within_budget sample_msg_size
           (sample_established 100 0 true sample_bytes) (Some [x21])
           (at_ms 2000) (at_ms 2001) 11 7 100 0 [x68; x65; x6c] 0).
  vm_compute. reflexivity.
Defined.

Lemma new_session_sends_only_syn_witness :
  let r := session_get_outgoing sample_msg_size sample_new
             (Some sample_bytes) (at_ms 1001) (at_ms 1002) 100 in
  snd r = Some (packet_to_bytes (PACKET_TYPE_SYN 4660 22136 0) 0) /\
  outgoing_buffer (fst r) = sample_bytes.
Proof.
  cbv zeta.
  destruct (new_session_sends_only_syn sample_msg_size sample_new
              (Some sample_bytes) (at_ms 1001) (at_ms 1002) 100)
    as (_ & Hsyn & _ & _ & _ & Hbuf); [reflexivity|].
  split; [apply Hsyn; vm_compute; reflexivity|exact Hbuf].
Defined.

(** ** Acknowledgments and delivery *)

Lemma uint16_mod (z : Z) : is_uint16 z -> z mod 2 ^ 16 = z.
Proof. intros H. apply (to_uint16_small z H). Qed.

(** The acknowledgment is cumulative: when an Established session with a
    16-bit [my_seq] accepts a MSG whose 16-bit ACK field is [ack], its
    [my_seq] afterwards is [ack], also when the counter wraps around
    [0xFFFF] and when nothing new is acknowledged. *)
Theorem accepted_ack_becomes_my_seq
    (s : session_t) (polled : option (list byte))
    (sid ack : Z) (data : list byte) :
  state s = SESSION_STATE_ESTABLISHED ->
  is_uint16 (my_seq s) ->
  is_uint16 ack ->
  (ack - my_seq s) mod 2 ^ 16
  <= Z.of_nat (List.length (outgoing_buffer s ++ polled_bytes polled)) ->
  exists s' calls,
    session_data_incoming s polled (PACKET_TYPE_MSG sid (their_seq s) ack data)
    = Returned s' calls /\
    my_seq s' = ack.
Proof.
  intros Hst Hmy Hack Hle.
  pose proof (session_data_incoming_msg_accepted
                s polled sid (their_seq s) ack data) as Hacc.
  cbv zeta in Hacc. rewrite bytes_acked_after_poll in Hacc.
  rewrite poll_for_data_buffer in Hacc.
  specialize (Hacc Hst eq_refl Hle).
  do 2 eexists. split; [exact Hacc|]. cbn [my_seq].
  destruct (poll_for_data_frame polled s) as (_ & _ & _ & Ems & _).
  rewrite Ems.
  destruct (Z.eqb_spec ((ack - my_seq s) mod 2 ^ 16) 0) as [E0|N0].
  - unfold is_uint16, uint16_max in Hmy, Hack.
    apply Z.mod_divide in E0; [|lia].
    destruct E0 as [k Hk]. change (2 ^ 16) with 65536 in Hk.
    clear Hle Hacc. lia.
  - rewrite Zplus_mod_idemp_r.
    replace (my_seq s + (ack - my_seq s)) with ack by lia.
    now apply uint16_mod.
Qed.

Lemma accepted_ack_becomes_my_seq_witness :
  exists s' calls,
    session_data_incoming (sample_established 0xFFFE 0 false sample_bytes)
      None (PACKET_TYPE_MSG 7 0 3 [])
    = Returned s' calls /\
    my_seq s' = 3.
Proof.
  apply (accepted_ack_becomes_my_seq
           (sample_established 0xFFFE 0 false sample_bytes) None 7 3 []).
  - reflexivity.
  - vm_compute. split; discriminate.
  - vm_compute. split; discriminate.
  - vm_compute. discriminate.
Defined.



Section Delivery.

Variable packet_get_msg_size : options_t -> Z.

Lemma step_calls_their_seq
    (s s' : session_t) (c : call) (calls : list driver_call) :
  state s = SESSION_STATE_ESTABLISHED ->
  is_uint16 (their_seq s) ->
  step_calls packet_get_msg_size s c = Some (s', calls) ->
  state s' = SESSION_STATE_ESTABLISHED /\
  their_seq s'
  = (their_seq s + Z.of_nat (List.length (delivered calls))) mod 2 ^ 16.
Proof.
  intros Hst Hth Hstep.
  destruct (poll_for_data_frame (call_polled c) s)
    as (_ & Est & Ets & _).
  assert (Hsame : their_seq s = (their_seq s + 0) mod 2 ^ 16)
    by (rewrite Z.add_0_r; symmetry; now apply uint16_mod).
  destruct c as [polled t_check t_emit max_length|polled packet];
    cbn [step_calls call_polled] in *.
  - injection Hstep as <- <-.
    destruct (session_get_outgoing_session packet_get_msg_size s polled
                t_check t_emit max_length) as [(_ & _ & E)|(_ & _ & E)];
      rewrite E; cbn; rewrite Est, Ets; auto.
  - destruct (session_data_incoming s polled packet) as [s1 calls1|code]
      eqn:Hinc; [|discriminate Hstep].
    injection Hstep as <- <-.
    apply session_data_incoming_returned in Hinc. cbv zeta in Hinc.
    destruct Hinc
      as [(-> & ->)
         |[(sid & seq & opts & -> & Hnew & -> & ->)
          |[(Hclose & _ & -> & ->)
           |(sid & ack & data & -> & _ & Hack & -> & ->)]]];
      cbn; rewrite ?Est, ?Ets; auto; try congruence.
    split; [reflexivity|].
    destruct data; cbn; rewrite ?app_nil_r; reflexivity.
Qed.

(** [their_seq] counts the bytes handed to the driver: over any sequence
    of calls on an Established session with a 16-bit [their_seq], the
    process does not exit, the session stays Established, and [their_seq]
    advances, modulo 2^16, by exactly the number of bytes passed to
    [driver_data_received]. *)
Theorem their_seq_counts_delivered_bytes (cs : list call) :
  forall s,
    state s = SESSION_STATE_ESTABLISHED ->
    is_uint16 (their_seq s) ->
    exists s' calls,
      run_calls packet_get_msg_size s cs = Some (s', calls) /\
      state s' = SESSION_STATE_ESTABLISHED /\
      their_seq s'
      = (their_seq s + Z.of_nat (List.length (delivered calls))) mod 2 ^ 16.
Proof.
  induction cs as [|c cs IH]; intros s Hst Hth; cbn [run_calls].
  - exists s, []. cbn. rewrite Z.add_0_r, uint16_mod by assumption. auto.
  - destruct (step_established packet_get_msg_size s c Hst)
      as (s1 & Hstep1 & _).
    assert (Hsc : exists calls1,
               step_calls packet_get_msg_size s c = Some (s1, calls1)).
    { destruct c as [polled t_check t_emit max_length|polled packet];
        cbn [step step_calls] in *.
      - injection Hstep1 as <-. eauto.
      - destruct (session_data_incoming s polled packet);
          [injection Hstep1 as <-; eauto|discriminate]. }
    destruct Hsc as (calls1 & Hsc). rewrite Hsc.
    destruct (step_calls_their_seq s s1 c calls1 Hst Hth Hsc) as [Hst1 Hts1].
    assert (Hth1 : is_uint16 (their_seq s1)).
    { rewrite Hts1. unfold is_uint16, uint16_max.
      match goal with
      | |- _ <= ?z mod _ <= _ => pose proof (Z.mod_pos_bound z (2 ^ 16))
      end. lia. }
    destruct (IH s1 Hst1 Hth1) as (s' & calls & Hrun & Hst' & Hts').
    rewrite Hrun. exists s', (calls1 ++ calls).
    split; [reflexivity|]. split; [exact Hst'|].
    rewrite Hts', Hts1. unfold delivered. rewrite flat_map_app, length_app.
    rewrite Nat2Z.inj_add, Zplus_mod_idemp_l. f_equal. lia.
Qed.

End Delivery.

Lemma their_seq_counts_delivered_bytes_witness :
  exists s' calls,
    run_calls sample_msg_size (sample_established 100 0xFFFF false sample_bytes)
      [ call_data_incoming None (PACKET_TYPE_MSG 7 0xFFFF 102 [x41; x42]);
        call_get_outgoing None (at_ms 2000) (at_ms 2001) 100;
        call_data_incoming None (PACKET_TYPE_MSG 7 0xFFFF 102 [x41; x42]);
        call_data_incoming None (PACKET_TYPE_MSG 7 1 105 [x43]) ]
    = Some (s', calls) /\
    state s' = SESSION_STATE_ESTABLISHED /\
    their_seq s'
    = (0xFFFF + Z.of_nat (List.length (delivered calls))) mod 2 ^ 16.
Proof.
  apply (their_seq_counts_delivered_bytes sample_msg_size).
  - reflexivity.
  - vm_compute. split; discriminate.
Defined.

(** ** Sending, resending and acknowledging *)

Lemma peek_length (b : list byte) (budget : Z) :
  0 <= budget ->
  Z.to_nat (Z.min (Z.of_nat (List.length b)) budget)
  = Nat.min (List.length b) (Z.to_nat budget).
Proof.
  intros H. rewrite Z2Nat.inj_min, Nat2Z.id. reflexivity.
Qed.

(** Peeking again after bytes were appended returns what was peeked
    before, followed by some of the appended bytes. *)
Lemma peek_after_append (b p : list byte) (k : nat) :
  firstn (Nat.min (List.length (b ++ p)) k) (b ++ p)
  = firstn (Nat.min (List.length b) k) b
    ++ firstn (Nat.min (List.length (b ++ p)) k - List.length b) p.
Proof.
  rewrite firstn_app. f_equal.
  rewrite length_app.
  destruct (Nat.le_gt_cases k (List.length b)) as [Hle|Hgt].
  - now rewrite !Nat.min_r by lia.
  - rewrite (Nat.min_l (List.length b) k) by lia.
    rewrite !firstn_all2; [reflexivity|lia|lia].
Qed.

Section Conversation.

Variable packet_get_msg_size : options_t -> Z.

(** The session a production call leaves when it returned a MSG. *)
Lemma session_get_outgoing_msg_session
    (s : session_t) (polled : option (list byte))
    (t_check t_emit : timeval) (max_length : Z)
    (i sq ak : Z) (d : list byte) (o : options_t) :
  snd (session_get_outgoing packet_get_msg_size s polled t_check t_emit
         max_length)
  = Some (packet_to_bytes (PACKET_TYPE_MSG i sq ak d) o) ->
  fst (session_get_outgoing packet_get_msg_size s polled t_check t_emit
         max_length)
  = update_counter t_emit (poll_for_data polled s).
Proof.
  intros Hmsg.
  destruct (session_get_outgoing_session packet_get_msg_size s polled
              t_check t_emit max_length) as [(Hn & _)|(_ & _ & E)].
  - rewrite Hn in Hmsg. discriminate Hmsg.
  - exact E.
Qed.

(** Unacknowledged bytes are resent as they were: when a production call
    returned a MSG with a non-empty payload and the next production call,
    made with the same frame size budget once the retransmit delay has
    passed, follows with no frame received in between, it returns a MSG
    with the same id, SEQ and ACK whose payload starts with the same
    bytes; it is the same payload when the driver supplied nothing new. *)
Theorem unacknowledged_bytes_are_resent
    (s : session_t) (p1 p2 : option (list byte))
    (c1 e1 c2 e2 : timeval) (max_length : Z)
    (i sq ak : Z) (d : list byte) (o : options_t) :
  let r1 := session_get_outgoing packet_get_msg_size s p1 c1 e1 max_length in
  let r2 := session_get_outgoing packet_get_msg_size (fst r1) p2 c2 e2
              max_length in
  snd r1 = Some (packet_to_bytes (PACKET_TYPE_MSG i sq ak d) o) ->
  d <> [] ->
  time_ms c2 - time_ms e1 > RETRANSMIT_DELAY ->
  exists rest,
    snd r2 = Some (packet_to_bytes (PACKET_TYPE_MSG i sq ak (d ++ rest)) o) /\
    (polled_bytes p2 = [] -> rest = []).
Proof.
  intros r1 r2 Hmsg Hd Hgo.
  pose proof (session_get_outgoing_msg_session _ _ _ _ _ _ _ _ _ _ Hmsg)
    as Hs1.
  apply session_get_outgoing_msg in Hmsg. cbv zeta in Hmsg.
  destruct Hmsg as (Hst & _ & -> & -> & -> & -> & Ed).
  fold r1 in Hs1.
  destruct (poll_for_data_frame p1 s)
    as (Eid & Est & Ets & Ems & _ & _ & Eop).
  pose proof (poll_for_data_buffer p1 s) as Ebuf.
  set (s1 := update_counter e1 (poll_for_data p1 s)) in *.
  assert (Hst1 : state s1 = SESSION_STATE_ESTABLISHED)
    by (unfold s1; cbn; congruence).
  destruct (poll_for_data_frame p2 s1)
    as (Fid & _ & Fts & Fms & _ & _ & Fop).
  pose proof (poll_for_data_buffer p2 s1) as Fbuf.
  unfold r2. rewrite Hs1.
  rewrite session_get_outgoing_established
    by (assumption || (unfold s1; cbn; exact Hgo)).
  cbn [snd]. unfold established_frame. cbv zeta.
  rewrite Fid, Fts, Fms, Fop, Fbuf.
  unfold s1. cbn [id their_seq my_seq options outgoing_buffer update_counter
                  set_last_transmit].
  rewrite Eid, Ets, Ems, Eop, Ebuf.
  set (b := outgoing_buffer s ++ polled_bytes p1) in *.
  set (budget := to_size_t (max_length - packet_get_msg_size (options s))) in *.
  assert (Hbudget : 0 <= budget) by (apply Z.mod_pos_bound; lia).
  rewrite peek_length in Ed by exact Hbudget.
  rewrite peek_length by exact Hbudget.
  rewrite peek_after_append, <- Ed.
  assert (Hn1 : (0 < Nat.min (List.length b) (Z.to_nat budget))%nat).
  { destruct (Nat.min (List.length b) (Z.to_nat budget)); [|lia].
    cbn in Ed. contradiction. }
  assert (Hn2 : Z.min (Z.of_nat (List.length (b ++ polled_bytes p2))) budget
                <> 0).
  { rewrite length_app. lia. }
  apply Z.eqb_neq in Hn2. rewrite Hn2. cbn [andb].
  eexists. split; [reflexivity|].
  intros ->. apply firstn_nil.
Qed.

(** Acknowledging a frame removes what it carried: when a production call
    returned a MSG with SEQ [sq], ACK [ak] and a payload [d] shorter than
    2^16 bytes, and the peer answers with a MSG whose SEQ is [ak] and
    whose ACK is [sq] plus the length of [d] modulo 2^16, the answer is
    accepted, the buffer that is left is what followed [d] together with
    the bytes polled meanwhile, and [my_seq] is the ACK of the answer. *)
Theorem acknowledged_payload_is_released
    (s : session_t) (p1 p2 : option (list byte))
    (t_check t_emit : timeval) (max_length : Z)
    (i sq ak : Z) (d : list byte) (o : options_t)
    (sid : Z) (payload : list byte) :
  let r := session_get_outgoing packet_get_msg_size s p1 t_check t_emit
             max_length in
  let ack := (sq + Z.of_nat (List.length d)) mod 2 ^ 16 in
  snd r = Some (packet_to_bytes (PACKET_TYPE_MSG i sq ak d) o) ->
  is_uint16 (my_seq s) ->
  Z.of_nat (List.length d) < 2 ^ 16 ->
  exists rest s' calls,
    outgoing_buffer (fst r) = d ++ rest /\
    session_data_incoming (fst r) p2 (PACKET_TYPE_MSG sid ak ack payload)
    = Returned s' calls /\
    outgoing_buffer s' = rest ++ polled_bytes p2 /\
    my_seq s' = ack.
Proof.
  intros r ack Hmsg Hmy Hlen.
  pose proof (session_get_outgoing_msg_session _ _ _ _ _ _ _ _ _ _ Hmsg)
    as Hs1.
  apply session_get_outgoing_msg in Hmsg. cbv zeta in Hmsg.
  destruct Hmsg as (Hst & _ & -> & Esq & -> & -> & Ed).
  fold r in Hs1.
  destruct (poll_for_data_frame p1 s) as (_ & Est & Ets & Ems & _).
  pose proof (poll_for_data_buffer p1 s) as Ebuf.
  set (s1 := update_counter t_emit (poll_for_data p1 s)) in *.
  assert (Hst1 : state s1 = SESSION_STATE_ESTABLISHED)
    by (unfold s1; cbn; congruence).
  assert (Hts1 : their_seq s1 = their_seq s) by (unfold s1; cbn; exact Ets).
  assert (Hms1 : my_seq s1 = my_seq s) by (unfold s1; cbn; exact Ems).
  assert (Hb1 : outgoing_buffer s1 = outgoing_buffer s ++ polled_bytes p1)
    by (unfold s1; cbn; exact Ebuf).
  set (b := outgoing_buffer s ++ polled_bytes p1) in *.
  set (n := Z.to_nat _) in Ed.
  assert (Hsplit : b = d ++ skipn n b)
    by (rewrite Ed; symmetry; apply firstn_skipn).
  assert (Hacked : (ack - my_seq s1) mod 2 ^ 16 = Z.of_nat (List.length d)).
  { unfold ack. rewrite Hms1, Esq.
    rewrite Zminus_mod_idemp_l.
    replace (my_seq s + Z.of_nat (List.length d) - my_seq s)
      with (Z.of_nat (List.length d)) by lia.
    apply Z.mod_small. lia. }
  pose proof (session_data_incoming_msg_accepted
                s1 p2 sid (their_seq s1) ack payload) as Hacc.
  cbv zeta in Hacc. rewrite bytes_acked_after_poll in Hacc.
  rewrite poll_for_data_buffer, Hacked, Hb1 in Hacc.
  assert (Hle : Z.of_nat (List.length d)
                <= buffer_get_remaining_bytes (b ++ polled_bytes p2)).
  { unfold buffer_get_remaining_bytes.
    rewrite Hsplit, !length_app. lia. }
  specialize (Hacc Hst1 eq_refl Hle).
  exists (skipn n b). do 2 eexists.
  rewrite Hs1. split; [rewrite Hb1; exact Hsplit|].
  split; [rewrite <- Hts1; exact Hacc|].
  cbn [outgoing_buffer my_seq]. split.
  - rewrite Nat2Z.id. rewrite Hsplit at 1.
    rewrite <- app_assoc, skipn_app, skipn_all, Nat.sub_diag. reflexivity.
  - destruct (poll_for_data_frame p2 s1) as (_ & _ & _ & Fms & _).
    rewrite Fms, Hms1. unfold ack. rewrite Esq.
    destruct (Z.eqb_spec (Z.of_nat (List.length d)) 0) as [E0|N0].
    + rewrite E0, Z.add_0_r. symmetry. now apply uint16_mod.
    + reflexivity.
Qed.

(** After the handshake the session speaks to the peer it met: when a New
    session receives a SYN with sequence number [seq] and options [opts]
    and a production call follows that the timer lets through and that
    peeks at least one byte, the frame returned is a MSG with the session's
    id and [my_seq], ACK [seq], and the first bytes of everything the
    driver supplied so far, sized with the header of [opts] and serialized
    under [opts]. *)
Theorem first_msg_after_handshake
    (s : session_t) (p1 p2 : option (list byte))
    (sid seq : Z) (opts : options_t)
    (t_check t_emit : timeval) (max_length : Z) :
  let buffer := outgoing_buffer s ++ polled_bytes p1 ++ polled_bytes p2 in
  let n := Z.min (Z.of_nat (List.length buffer))
             (to_size_t (max_length - packet_get_msg_size opts)) in
  state s = SESSION_STATE_NEW ->
  time_ms t_check - last_transmit s > RETRANSMIT_DELAY ->
  0 < n ->
  exists s1,
    session_data_incoming s p1 (PACKET_TYPE_SYN sid seq opts) = Returned s1 [] /\
    snd (session_get_outgoing packet_get_msg_size s1 p2 t_check t_emit
           max_length)
    = Some (packet_to_bytes
              (PACKET_TYPE_MSG (id s) (my_seq s) seq
                 (firstn (Z.to_nat n) buffer))
              opts).
Proof.
  intros buffer n Hst Hgo Hn.
  destruct (poll_for_data_frame p1 s)
    as (Eid & Est & _ & Ems & _ & Elt & _).
  pose proof (poll_for_data_buffer p1 s) as Ebuf.
  set (s1 := set_state SESSION_STATE_ESTABLISHED
               (set_options opts (set_their_seq seq (poll_for_data p1 s)))).
  exists s1. split.
  - unfold session_data_incoming. rewrite Est, Hst. reflexivity.
  - destruct (poll_for_data_frame p2 s1)
      as (Fid & _ & Fts & Fms & _ & _ & Fop).
    pose proof (poll_for_data_buffer p2 s1) as Fbuf.
    rewrite session_get_outgoing_established
      by (unfold s1; cbn; congruence).
    cbn [snd]. unfold established_frame. cbv zeta.
    rewrite Fid, Fts, Fms, Fop, Fbuf. unfold s1. cbn.
    rewrite Eid, Ems, Ebuf, <- app_assoc.
    fold buffer. fold (to_size_t (max_length - packet_get_msg_size opts)).
    fold n.
    destruct (Z.eqb_spec n 0) as [E0|_]; [lia|]. reflexivity.
Qed.

End Conversation.

Lemma unacknowledged_bytes_are_resent_witness :
  let s := sample_established 100 0 false sample_bytes in
  let r1 := session_get_outgoing sample_msg_size s None
              (at_ms 2000) (at_ms 2001) 100 in
  let r2 := session_get_outgoing sample_msg_size (fst r1) (Some [x21])
              (at_ms 3002) (at_ms 3003) 100 in
  exists rest,
    snd r2 = Some (packet_to_bytes
                     (PACKET_TYPE_MSG 7 100 0 (sample_bytes ++ rest)) 0) /\
    (polled_bytes (Some [x21]) = [] -> rest = []).
Proof.
  apply (unacknowledged_bytes_are_resent sample_msg_size
           (sample_established 100 0 false sample_bytes) None (Some [x21])
           (at_ms 2000) (at_ms 2001) (at_ms 3002) (at_ms 3003) 100
           7 100 0 sample_bytes 0).
  - vm_compute. reflexivity.
  - discriminate.
  - vm_compute. reflexivity.
Defined.

Lemma acknowledged_payload_is_released_witness :
  let s := sample_established 100 0 false sample_bytes in
  let r := session_get_outgoing sample_msg_size s None
             (at_ms 2000) (at_ms 2001) 11 in
  exists rest s' calls,
    outgoing_buffer (fst r) = [x68; x65; x6c] ++ rest /\
    session_data_incoming (fst r) (Some [x21])
      (PACKET_TYPE_MSG 7 0
         ((100 + Z.of_nat (List.length [x68; x65; x6c])) mod 2 ^ 16) [x41])
    = Returned s' calls /\
    outgoing_buffer s' = rest ++ polled_bytes (Some [x21]) /\
    my_seq s' = (100 + Z.of_nat (List.length [x68; x65; x6c])) mod 2 ^ 16.
Proof.
  apply (acknowledged_payload_is_released sample_msg_size
           (sample_established 100 0 false sample_bytes) None (Some [x21])
           (at_ms 2000) (at_ms 2001) 11 7 100 0 [x68; x65; x6c] 0 7 [x41]).
  - vm_compute. reflexivity.
  - vm_compute. split; discriminate.
  - vm_compute. reflexivity.
Defined.

Lemma first_msg_after_handshake_witness :
  exists s1,
    session_data_incoming sample_new (Some sample_bytes)
      (PACKET_TYPE_SYN 7 0x1234 1)
    = Returned s1 [] /\
    snd (session_get_outgoing sample_msg_size s1 (Some [x21])
           (at_ms 2000) (at_ms 2001) 100)
    = Some (packet_to_bytes
              (PACKET_TYPE_MSG (id sample_new) (my_seq sample_new) 0x1234
                 (firstn
                    (Z.to_nat
                       (Z.min
                          (Z.of_nat
                             (List.length
                                (outgoing_buffer sample_new
                                 ++ polled_bytes (Some sample_bytes)
                                 ++ polled_bytes (Some [x21]))))
                          (to_size_t (100 - sample_msg_size 1))))
                    (outgoing_buffer sample_new
                     ++ polled_bytes (Some sample_bytes)
                     ++ polled_bytes (Some [x21]))))
              1).
Proof.
  apply (first_msg_after_handshake sample_msg_size sample_new
           (Some sample_bytes) (Some [x21]) 7 0x1234 1
           (at_ms 2000) (at_ms 2001) 100).
  - reflexivity.
  - vm_compute. reflexivity.
  - vm_compute. reflexivity.
Defined.
